(** * Log service: ingest and read-recent handlers

    A shallow embedding of the two Lambda handlers of the log service
    ([lambdas/ingest/index.ts], [lambdas/read-recent/index.ts]), of the
    validator ([utils/validator.ts]) and of the data model
    ([models/log-entry.ts]).

    Conventions.
    - A JavaScript string is represented by its UTF-8 bytes, as a [string].
    - A JavaScript value reachable from [JSON.parse] is a [value]; [undefined]
      is added for absent properties.
    - The handlers run in a small state-and-exception monad over a [World]
      (the DynamoDB table and the console).  What the platform decides during
      one invocation (generated id, clock reading, storage faults) is read
      from an [Env]. *)

From Stdlib Require Import List String Ascii ZArith NArith Bool Lia Arith.
From Stdlib Require Import Sorting.Sorted Sorting.Permutation.
Import ListNotations.
Open Scope string_scope.

(* ================================================================== *)
(** ** JavaScript values *)
(* ================================================================== *)

Module JS.

(** A number literal [m * 10^e]; the sign of zero is not kept, no operation
    of the handlers observes it. *)
#[warnings="-register-all"]
Inductive value : Type :=
| VUndefined
| VNull
| VBool (b : bool)
| VNum (m e : Z)
| VStr (s : string)
| VArr (elems : list value)
| VObj (members : list (string * value)).

(** The binary64 nearest to [m * 10^e] is zero exactly when
    [|m| * 10^e <= 2^-1075] (round to nearest, ties to even). *)
Definition number_is_zero (m e : Z) : bool :=
  if (m =? 0)%Z then true
  else if (0 <=? e)%Z then false
  else (Z.abs m * 2 ^ 1075 <=? 10 ^ (- e))%Z.

(** ToBoolean *)
Definition to_boolean (v : value) : bool :=
  match v with
  | VUndefined | VNull => false
  | VBool b => b
  | VNum m e => negb (number_is_zero m e)
  | VStr s => negb (s =? "")
  | VArr _ | VObj _ => true
  end.

(** The [typeof] operator. *)
Definition typeof (v : value) : string :=
  match v with
  | VUndefined => "undefined"
  | VNull => "object"
  | VBool _ => "boolean"
  | VNum _ _ => "number"
  | VStr _ => "string"
  | VArr _ | VObj _ => "object"
  end.

(** Own data property of an object built by [JSON.parse]: members are
    defined in source order, a later duplicate overrides an earlier one. *)
Fixpoint lookup (k : string) (members : list (string * value))
  : option value :=
  match members with
  | [] => None
  | (k', v) :: rest =>
      match lookup k rest with
      | Some later => Some later
      | None => if k' =? k then Some v else None
      end
  end.

(** [o.k] for the property names the handlers read ([severity], [message]):
    neither arrays nor the prototypes define them. *)
Definition get (o : value) (k : string) : value :=
  match o with
  | VObj members =>
      match lookup k members with Some v => v | None => VUndefined end
  | _ => VUndefined
  end.

(** [arr.includes(v)] on an array of strings (SameValueZero). *)
Definition includes (arr : list string) (v : value) : bool :=
  match v with
  | VStr s => existsb (String.eqb s) arr
  | _ => false
  end.

(** [arr.join(sep)] on an array of strings. *)
Definition join (sep : string) (arr : list string) : string :=
  String.concat sep arr.

(** *** [String.prototype.trim] *)

Definition codes (s : string) : list N :=
  map N_of_ascii (list_ascii_of_string s).

Definition of_codes (l : list N) : string :=
  string_of_list_ascii (map ascii_of_N l).

Local Open Scope N_scope.

(** The three-byte white space code points: U+1680, U+2000..U+200A, U+2028,
    U+2029, U+202F, U+205F, U+3000, U+FEFF. *)
Definition ws3 (a b c : N) : bool :=
  (a =? 0xE1) && (b =? 0x9A) && (c =? 0x80)
  || (a =? 0xE2) && (b =? 0x80)
     && ((0x80 <=? c) && (c <=? 0x8A)
         || (c =? 0xA8) || (c =? 0xA9) || (c =? 0xAF))
  || (a =? 0xE2) && (b =? 0x81) && (c =? 0x9F)
  || (a =? 0xE3) && (b =? 0x80) && (c =? 0x80)
  || (a =? 0xEF) && (b =? 0xBB) && (c =? 0xBF).

(** Byte length of the WhiteSpace or LineTerminator code point that starts
    [l], 0 when there is none: TAB, LF, VT, FF, CR, SP, U+00A0 and the
    three-byte ones. *)
Definition ws_width (l : list N) : nat :=
  match l with
  | a :: r =>
      if (9 <=? a) && (a <=? 13) || (a =? 32) then 1%nat
      else match r with
      | b :: r' =>
          if (a =? 0xC2) && (b =? 0xA0) then 2%nat
          else match r' with
          | c :: _ => if ws3 a b c then 3%nat else 0%nat
          | [] => 0%nat
          end
      | [] => 0%nat
      end
  | [] => 0%nat
  end.

(** The same for the code point that ends the string, whose bytes are read
    backwards: [l] is the reversed string, last byte first. *)
Definition ws_width_rev (l : list N) : nat :=
  match l with
  | c :: r =>
      if (9 <=? c) && (c <=? 13) || (c =? 32) then 1%nat
      else match r with
      | b :: r' =>
          if (b =? 0xC2) && (c =? 0xA0) then 2%nat
          else match r' with
          | a :: _ => if ws3 a b c then 3%nat else 0%nat
          | [] => 0%nat
          end
      | [] => 0%nat
      end
  | [] => 0%nat
  end.

Local Close Scope N_scope.

(** Drops white space from the front; [skip] bytes of the current code
    point are still to be dropped. *)
Fixpoint drop_ws (width : list N -> nat) (skip : nat) (l : list N) : list N :=
  match skip with
  | S k => match l with _ :: r => drop_ws width k r | [] => [] end
  | O =>
      match width l with
      | O => l
      | S k => match l with _ :: r => drop_ws width k r | [] => [] end
      end
  end.

Definition trimStart (l : list N) : list N := drop_ws ws_width 0 l.
Definition trimEnd (l : list N) : list N :=
  rev (drop_ws ws_width_rev 0 (rev l)).

Definition trim (s : string) : string :=
  of_codes (trimEnd (trimStart (codes s))).

End JS.

(* ================================================================== *)
(** ** [JSON.parse] *)
(* ================================================================== *)

Module JSON.
Import JS.

Inductive token :=
| TLBrace | TRBrace | TLBracket | TRBracket | TColon | TComma
| TString (s : string)
| TNumber (m e : Z)
| TTrue | TFalse | TNull.

(** A unit of a string literal: a byte copied from the text, or a UTF-16
    code unit written as [\uXXXX]. *)
Inductive strunit := Raw (b : N) | Unit16 (u : N).

Local Open Scope N_scope.

Definition utf8 (cp : N) : list N :=
  if cp <? 0x80 then [cp]
  else if cp <? 0x800 then [0xC0 + cp / 64; 0x80 + cp mod 64]
  else if cp <? 0x10000 then
    [0xE0 + cp / 4096; 0x80 + (cp / 64) mod 64; 0x80 + cp mod 64]
  else
    [0xF0 + cp / 262144; 0x80 + (cp / 4096) mod 64;
     0x80 + (cp / 64) mod 64; 0x80 + cp mod 64].

Definition is_high (u : N) : bool := (0xD800 <=? u) && (u <=? 0xDBFF).
Definition is_low (u : N) : bool := (0xDC00 <=? u) && (u <=? 0xDFFF).

(** UTF-8 bytes of the units; a high surrogate followed by a low one is one
    code point. *)
Fixpoint encode (l : list strunit) : list N :=
  match l with
  | [] => []
  | Raw b :: r => b :: encode r
  | Unit16 hi :: r =>
      match r with
      | Unit16 lo :: r' =>
          if is_high hi && is_low lo
          then utf8 (0x10000 + (hi - 0xD800) * 0x400 + (lo - 0xDC00))
               ++ encode r'
          else utf8 hi ++ encode r
      | _ => utf8 hi ++ encode r
      end
  end.

Definition hex_digit (c : N) : option N :=
  if (48 <=? c) && (c <=? 57) then Some (c - 48)
  else if (65 <=? c) && (c <=? 70) then Some (c - 55)
  else if (97 <=? c) && (c <=? 102) then Some (c - 87)
  else None.

Definition digit (c : N) : option Z :=
  if (48 <=? c) && (c <=? 57) then Some (Z.of_N (c - 48)) else None.

Definition is_ws (c : N) : bool :=
  (c =? 9) || (c =? 10) || (c =? 13) || (c =? 32).

(** The character after a backslash, [u] apart. *)
Definition escape (c : N) : option N :=
  if c =? 34 then Some 34 else if c =? 92 then Some 92
  else if c =? 47 then Some 47 else if c =? 98 then Some 8
  else if c =? 102 then Some 12 else if c =? 110 then Some 10
  else if c =? 114 then Some 13 else if c =? 116 then Some 9
  else None.

Local Close Scope N_scope.

(** Where the lexer is inside a number literal. *)
Inductive num_state :=
| NMinus | NZero | NInt | NDot | NFrac | NE | NESign | NExp.

Record num_acc := {
  neg : bool;     (* a leading minus *)
  mant : Z;       (* the digits before and after the point *)
  scale : Z;      (* how many of them after the point *)
  eneg : bool;    (* a minus in the exponent *)
  ex : Z          (* the digits of the exponent *)
}.

Definition num0 (sign : bool) (d : Z) : num_acc :=
  {| neg := sign; mant := d; scale := 0; eneg := false; ex := 0 |}.

Definition num_token (a : num_acc) : token :=
  TNumber (if neg a then - mant a else mant a)
          ((if eneg a then - ex a else ex a) - scale a)%Z.

Definition push_int (a : num_acc) (d : Z) : num_acc :=
  {| neg := neg a; mant := mant a * 10 + d; scale := scale a;
     eneg := eneg a; ex := ex a |}.

Definition push_frac (a : num_acc) (d : Z) : num_acc :=
  {| neg := neg a; mant := mant a * 10 + d; scale := scale a + 1;
     eneg := eneg a; ex := ex a |}.

Definition push_exp (a : num_acc) (d : Z) : num_acc :=
  {| neg := neg a; mant := mant a; scale := scale a;
     eneg := eneg a; ex := ex a * 10 + d |}.

Definition set_eneg (a : num_acc) : num_acc :=
  {| neg := neg a; mant := mant a; scale := scale a;
     eneg := true; ex := ex a |}.

Definition num_final (st : num_state) : bool :=
  match st with NZero | NInt | NFrac | NExp => true | _ => false end.

Inductive lex_state :=
| LStart
| LLit (rest : list N) (t : token)
| LStr (acc : list strunit)
| LEsc (acc : list strunit)
| LHex (acc : list strunit) (todo : nat) (v : N)
| LNum (st : num_state) (a : num_acc).

(** One step of a number literal on a character that continues it. *)
Definition num_step (st : num_state) (a : num_acc) (c : N)
  : option (num_state * num_acc) :=
  let is_e := ((c =? 101) || (c =? 69))%N in
  let is_dot := (c =? 46)%N in
  match st, digit c with
  | NMinus, Some d => Some (if (d =? 0)%Z then NZero else NInt, push_int a d)
  | NZero, None =>
      if is_dot then Some (NDot, a) else if is_e then Some (NE, a) else None
  | NInt, Some d => Some (NInt, push_int a d)
  | NInt, None =>
      if is_dot then Some (NDot, a) else if is_e then Some (NE, a) else None
  | NDot, Some d => Some (NFrac, push_frac a d)
  | NFrac, Some d => Some (NFrac, push_frac a d)
  | NFrac, None => if is_e then Some (NE, a) else None
  | NE, Some d => Some (NExp, push_exp a d)
  | NE, None =>
      if (c =? 43)%N then Some (NESign, a)
      else if (c =? 45)%N then Some (NESign, set_eneg a) else None
  | NESign, Some d => Some (NExp, push_exp a d)
  | NExp, Some d => Some (NExp, push_exp a d)
  | _, _ => None
  end.

(** What may follow a number: white space, or the punctuation that can come
    after a value. *)
Definition after_number (c : N) : option (list token) :=
  if is_ws c then Some []
  else if (c =? 44)%N then Some [TComma]
  else if (c =? 93)%N then Some [TRBracket]
  else if (c =? 125)%N then Some [TRBrace]
  else None.

Definition emit (ts : list token) (r : option (list token))
  : option (list token) :=
  option_map (app ts) r.

Fixpoint lex (st : lex_state) (l : list N) : option (list token) :=
  match l with
  | [] =>
      match st with
      | LStart => Some []
      | LNum ns a => if num_final ns then Some [num_token a] else None
      | _ => None
      end
  | c :: r =>
      match st with
      | LStart =>
          if is_ws c then lex LStart r
          else if (c =? 123)%N then emit [TLBrace] (lex LStart r)
          else if (c =? 125)%N then emit [TRBrace] (lex LStart r)
          else if (c =? 91)%N then emit [TLBracket] (lex LStart r)
          else if (c =? 93)%N then emit [TRBracket] (lex LStart r)
          else if (c =? 58)%N then emit [TColon] (lex LStart r)
          else if (c =? 44)%N then emit [TComma] (lex LStart r)
          else if (c =? 34)%N then lex (LStr []) r
          else if (c =? 45)%N then lex (LNum NMinus (num0 true 0)) r
          else if (c =? 116)%N then lex (LLit [114; 117; 101]%N TTrue) r
          else if (c =? 102)%N then lex (LLit [97; 108; 115; 101]%N TFalse) r
          else if (c =? 110)%N then lex (LLit [117; 108; 108]%N TNull) r
          else match digit c with
               | Some d =>
                   lex (LNum (if (d =? 0)%Z then NZero else NInt)
                             (num0 false d)) r
               | None => None
               end
      | LLit rest t =>
          match rest with
          | [x] => if (c =? x)%N then emit [t] (lex LStart r) else None
          | x :: rest' => if (c =? x)%N then lex (LLit rest' t) r else None
          | [] => None
          end
      | LStr acc =>
          if (c =? 34)%N
          then emit [TString (of_codes (encode (rev acc)))] (lex LStart r)
          else if (c =? 92)%N then lex (LEsc acc) r
          else if (c <? 32)%N then None
          else lex (LStr (Raw c :: acc)) r
      | LEsc acc =>
          if (c =? 117)%N then lex (LHex acc 4 0%N) r
          else match escape c with
               | Some b => lex (LStr (Raw b :: acc)) r
               | None => None
               end
      | LHex acc todo v =>
          match hex_digit c, todo with
          | Some h, 1%nat => lex (LStr (Unit16 (v * 16 + h)%N :: acc)) r
          | Some h, S k => lex (LHex acc k (v * 16 + h)%N) r
          | _, _ => None
          end
      | LNum ns a =>
          match num_step ns a c with
          | Some (ns', a') => lex (LNum ns' a') r
          | None =>
              if num_final ns then
                match after_number c with
                | Some ts => emit (num_token a :: ts) (lex LStart r)
                | None => None
                end
              else None
          end
      end
  end.

(** *** The grammar, on tokens *)

(** An enclosing array or object whose next element is being read. *)
Inductive frame :=
| FArr (done : list value)
| FObj (done : list (string * value)) (key : string).

Inductive pstate :=
| PValue                                         (* a value must start *)
| PArrFirst                                      (* after an opening bracket *)
| PObjFirst                                      (* after an opening brace *)
| PKey (done : list (string * value))            (* after a comma in an object *)
| PColon (done : list (string * value)) (k : string)
| PAfter (v : value).                            (* a value is complete *)

Definition start_value (t : token) (stack : list frame)
  : option (pstate * list frame) :=
  match t with
  | TString s => Some (PAfter (VStr s), stack)
  | TNumber m e => Some (PAfter (VNum m e), stack)
  | TTrue => Some (PAfter (VBool true), stack)
  | TFalse => Some (PAfter (VBool false), stack)
  | TNull => Some (PAfter VNull, stack)
  | TLBracket => Some (PArrFirst, stack)
  | TLBrace => Some (PObjFirst, stack)
  | _ => None
  end.

Definition pstep (st : pstate) (stack : list frame) (t : token)
  : option (pstate * list frame) :=
  match st with
  | PValue => start_value t stack
  | PArrFirst =>
      match t with
      | TRBracket => Some (PAfter (VArr []), stack)
      | _ => start_value t (FArr [] :: stack)
      end
  | PObjFirst =>
      match t with
      | TRBrace => Some (PAfter (VObj []), stack)
      | TString k => Some (PColon [] k, stack)
      | _ => None
      end
  | PKey done =>
      match t with
      | TString k => Some (PColon done k, stack)
      | _ => None
      end
  | PColon done k =>
      match t with
      | TColon => Some (PValue, FObj done k :: stack)
      | _ => None
      end
  | PAfter v =>
      match stack, t with
      | FArr done :: up, TComma => Some (PValue, FArr (v :: done) :: up)
      | FArr done :: up, TRBracket => Some (PAfter (VArr (rev (v :: done))), up)
      | FObj done k :: up, TComma => Some (PKey ((k, v) :: done), up)
      | FObj done k :: up, TRBrace =>
          Some (PAfter (VObj (rev ((k, v) :: done))), up)
      | _, _ => None
      end
  end.

Fixpoint parse_tokens (st : pstate) (stack : list frame) (ts : list token)
  : option value :=
  match ts with
  | [] =>
      match st, stack with
      | PAfter v, [] => Some v
      | _, _ => None
      end
  | t :: rest =>
      match pstep st stack t with
      | Some (st', stack') => parse_tokens st' stack' rest
      | None => None
      end
  end.

(** [JSON.parse(text)]; [None] stands for the SyntaxError it throws. *)
Definition parse (text : string) : option value :=
  match lex LStart (codes text) with
  | Some ts => parse_tokens PValue [] ts
  | None => None
  end.

End JSON.

(* ================================================================== *)
(** ** models/log-entry.ts *)
(* ================================================================== *)

(** [severity] and [message] are copied from the request body as they are;
    the TypeScript types are erased at run time, so they are values. *)
Record LogEntry := {
  logId : string;
  timestamp : string;
  severity : JS.value;
  message : JS.value;
  logType : string
}.

Record CreateLogResponse := {
  success : bool;
  cr_logId : option string;
  cr_timestamp : option string;
  cr_message : option string
}.

Record ReadRecentResponse := {
  count : nat;
  logs : list LogEntry;
  rr_error : option string
}.

(* ================================================================== *)
(** ** utils/validator.ts *)
(* ================================================================== *)

Module Validator.
Import JS.

Definition VALID_SEVERITIES : list string := ["info"; "warning"; "error"].

Record ValidationResult := {
  isValid : bool;
  error : option string
}.

Definition invalid (msg : string) : ValidationResult :=
  {| isValid := false; error := Some msg |}.

Definition validateLogInput (input : value) : ValidationResult :=
  if negb (to_boolean input) || negb (typeof input =? "object") then
    invalid "Request body must be a valid JSON object"
  else if negb (to_boolean (get input "severity")) then
    invalid "Missing required field: severity"
  else if negb (includes VALID_SEVERITIES (get input "severity")) then
    invalid ("Invalid severity. Must be one of: " ++ join ", " VALID_SEVERITIES)
  else if negb (to_boolean (get input "message")) then
    invalid "Missing required field: message"
  else if negb (typeof (get input "message") =? "string") then
    invalid "Message must be a string"
  else if match get input "message" with
          | VStr s => (String.length (trim s) =? 0)%nat
          | _ => false
          end then
    invalid "Message cannot be empty"
  else
    {| isValid := true; error := None |}.

End Validator.


(* ================================================================== *)
(** ** The platform: storage engine, console, id generator, clock *)
(* ================================================================== *)

(** The Storage Engine: the DynamoDB table [LogEntries] and its index
    [TimestampIndex].  It is a service outside the repository; [put], [scan]
    and [query] follow the contract the spec gives it, with the primary key
    ([logId], [timestamp]) of the README. *)
Module DynamoDB.

Inductive StorageError :=
| StorageUnavailable (detail : string)
| StorageRejected (detail : string).

Definition Table := list LogEntry.

Definition same_key (a b : LogEntry) : bool :=
  (logId a =? logId b) && (timestamp a =? timestamp b).

(** Modelled from the spec: the engine's [put], which the source reaches
    through [PutCommand], inserts the record by primary key; an item with the
    same key is replaced. *)
Definition put (item : LogEntry) (t : Table) : Table :=
  (filter (fun x => negb (same_key x item)) t ++ [item])%list.

(** Order of the index scan on the sort key: ascending when
    [ScanIndexForward], descending otherwise. *)
Definition scan_order (forward : bool) (a b : LogEntry) : bool :=
  if forward then String.leb (timestamp a) (timestamp b)
  else String.leb (timestamp b) (timestamp a).

Fixpoint insert (le : LogEntry -> LogEntry -> bool) (x : LogEntry)
  (l : list LogEntry) : list LogEntry :=
  match l with
  | [] => [x]
  | y :: r => if le x y then x :: y :: r else y :: insert le x r
  end.

Fixpoint index_sort (le : LogEntry -> LogEntry -> bool) (l : list LogEntry)
  : list LogEntry :=
  match l with
  | [] => []
  | x :: r => insert le x (index_sort le r)
  end.

Record QueryInput := {
  KeyCondition : string;        (* logType = :logType *)
  ScanIndexForward : bool;
  Limit : nat
}.

Record QueryOutput := {
  Items : option (list LogEntry)
}.

(** Modelled from the spec: the engine's [queryRecent], which the source
    reaches through [QueryCommand], returns up to [Limit] records of the
    group, in the order of the index (ties in insertion order). *)
Definition scan (q : QueryInput) (t : Table) : list LogEntry :=
  firstn (Limit q)
    (index_sort (scan_order (ScanIndexForward q))
       (filter (fun x => logType x =? KeyCondition q) t)).

(** Modelled from the spec: the result of [QueryCommand]; [omit_empty]
    tells whether the client leaves [Items] out of an empty result, which
    the handler provides for. *)
Definition query (omit_empty : bool) (q : QueryInput) (t : Table)
  : QueryOutput :=
  match scan q t with
  | [] => {| Items := if omit_empty then None else Some [] |}
  | items => {| Items := Some items |}
  end.

End DynamoDB.

(** The Lambda Function URL event; the handlers read only [body]. *)
Record Event := {
  body : option string
}.

(** What is thrown inside a handler. *)
Inductive exn :=
| StorageFault (e : DynamoDB.StorageError).

Inductive ConsoleArg :=
| AEvent (e : Event)
| AText (s : string)
| ACount (n : nat)
| AError (e : exn).

Inductive ConsoleLine :=
| ConsoleLog (text : string) (arg : ConsoleArg)
| ConsoleError (text : string) (arg : ConsoleArg).

Record World := {
  table : DynamoDB.Table;
  console : list ConsoleLine
}.

(** What the platform decides during one invocation. *)
Record Env := {
  uuid : string;                              (* the result of uuidv4() *)
  now : string;                               (* new Date().toISOString() *)
  put_fault : option DynamoDB.StorageError;   (* PutCommand fails with it *)
  query_fault : option DynamoDB.StorageError; (* QueryCommand fails with it *)
  omit_empty_items : bool
}.

(** *** The handler monad: environment, state, exceptions *)

Inductive result (A : Type) :=
| Ok (a : A)
| Throw (e : exn).
Arguments Ok {A} a.
Arguments Throw {A} e.

Definition M (A : Type) : Type := Env -> World -> result A * World.

Definition ret {A} (a : A) : M A := fun _ w => (Ok a, w).

Definition bind {A B} (m : M A) (k : A -> M B) : M B :=
  fun env w =>
    match m env w with
    | (Ok a, w') => k a env w'
    | (Throw e, w') => (Throw e, w')
    end.

Definition throw {A} (e : exn) : M A := fun _ w => (Throw e, w).

(** [try { m } catch (error) { h error }] *)
Definition try_catch {A} (m : M A) (h : exn -> M A) : M A :=
  fun env w =>
    match m env w with
    | (Ok a, w') => (Ok a, w')
    | (Throw e, w') => h e env w'
    end.

Notation "x <- m ;; k" := (bind m (fun x => k))
  (at level 61, m at next level, right associativity).
Notation "m ;; k" := (bind m (fun _ => k))
  (at level 61, right associativity).

Definition console_log (text : string) (arg : ConsoleArg) : M unit :=
  fun _ w =>
    (Ok tt, {| table := table w; console := (console w ++ [ConsoleLog text arg])%list |}).

Definition console_error (text : string) (arg : ConsoleArg) : M unit :=
  fun _ w =>
    (Ok tt, {| table := table w; console := (console w ++ [ConsoleError text arg])%list |}).

Definition uuidv4 : M string := fun env w => (Ok (uuid env), w).

Definition Date_toISOString : M string := fun env w => (Ok (now env), w).

(** [dynamoDB.send(new PutCommand({ TableName, Item }))].  A fault stands
    for a put that is refused before it writes.  A put whose write is made
    durable and whose failure is reported all the same is not modelled:
    nothing is claimed of the table after a failed put beyond this
    definition. *)
Definition send_put (item : LogEntry) : M unit :=
  fun env w =>
    match put_fault env with
    | Some e => (Throw (StorageFault e), w)
    | None =>
        (Ok tt, {| table := DynamoDB.put item (table w); console := console w |})
    end.

(** [dynamoDB.send(new QueryCommand({ TableName, IndexName, ... }))] *)
Definition send_query (q : DynamoDB.QueryInput) : M DynamoDB.QueryOutput :=
  fun env w =>
    match query_fault env with
    | Some e => (Throw (StorageFault e), w)
    | None => (Ok (DynamoDB.query (omit_empty_items env) q (table w)), w)
    end.

(** The HTTP response; [body] is the object the handler hands to
    [JSON.stringify]. *)
Record Response (B : Type) := {
  statusCode : Z;
  headers : list (string * string);
  resp_body : B
}.
Arguments statusCode {B} r.
Arguments headers {B} r.
Arguments resp_body {B} r.

Definition json_headers : list (string * string) :=
  [("Content-Type", "application/json")].

(* ================================================================== *)
(** ** lambdas/ingest/index.ts *)
(* ================================================================== *)

Module Ingest.
Import JS Validator.

Definition failure (status : Z) (msg : string) : Response CreateLogResponse :=
  {| statusCode := status;
     headers := json_headers;
     resp_body := {| success := false; cr_logId := None;
                     cr_timestamp := None; cr_message := Some msg |} |}.

(** [event.body || '{}'] *)
Definition body_text (event : Event) : string :=
  match body event with
  | Some s => if s =? "" then "{}" else s
  | None => "{}"
  end.

Definition handler (event : Event) : M (Response CreateLogResponse) :=
  console_log "Received event:" (AEvent event) ;;
  try_catch
    (match JSON.parse (body_text event) with
     | None => ret (failure 400 "Invalid JSON in request body")
     | Some body =>
         let validation := validateLogInput body in
         if negb (isValid validation) then
           ret {| statusCode := 400;
                  headers := json_headers;
                  resp_body := {| success := false; cr_logId := None;
                                  cr_timestamp := None;
                                  cr_message := error validation |} |}
         else
           id <- uuidv4 ;;
           ts <- Date_toISOString ;;
           let logEntry :=
             {| logId := id;
                timestamp := ts;
                severity := get body "severity";
                message := get body "message";
                logType := "LOG" |} in
           send_put logEntry ;;
           console_log "Successfully stored log entry:" (AText (logId logEntry)) ;;
           ret {| statusCode := 200;
                  headers := json_headers;
                  resp_body := {| success := true;
                                  cr_logId := Some (logId logEntry);
                                  cr_timestamp := Some (timestamp logEntry);
                                  cr_message := None |} |}
     end)
    (fun error =>
       console_error "Error processing request:" (AError error) ;;
       ret (failure 500 "Internal server error")).

End Ingest.

(* ================================================================== *)
(** ** lambdas/read-recent/index.ts *)
(* ================================================================== *)

Module ReadRecent.

Definition handler (event : Event) : M (Response ReadRecentResponse) :=
  console_log "Received event:" (AEvent event) ;;
  try_catch
    (result <- send_query {| DynamoDB.KeyCondition := "LOG";
                             DynamoDB.ScanIndexForward := false;
                             DynamoDB.Limit := 100 |} ;;
     let logs := match DynamoDB.Items result with
                 | Some items => items
                 | None => []
                 end in
     console_log "Retrieved log entries" (ACount (List.length logs)) ;;
     ret {| statusCode := 200;
            headers := json_headers;
            resp_body := {| count := List.length logs; logs := logs;
                            rr_error := None |} |})
    (fun error =>
       console_error "Error retrieving logs:" (AError error) ;;
       ret {| statusCode := 500;
              headers := json_headers;
              resp_body := {| count := 0; logs := [];
                              rr_error := Some "Internal server error" |} |}).

End ReadRecent.


(* ================================================================== *)
(** ** Sample inputs *)
(* ================================================================== *)

Module Samples.
Import JS.

(** The double quote character. *)
Definition dq : string := String "034"%char "".

Definition quoted (s : string) : string := dq ++ s ++ dq.

(** The text of a JSON object with the given members, values already
    written as JSON. *)
Definition object_text (members : list (string * string)) : string :=
  "{" ++ String.concat "," (map (fun kv => quoted (fst kv) ++ ":" ++ snd kv) members)
      ++ "}".

Definition post (text : string) : Event := {| body := Some text |}.

Definition env_ok : Env :=
  {| uuid := "17fb2d04-a9aa-43d9-a95a-a0c3a3a0aa9c";
     now := "2025-10-25T14:19:48.337Z";
     put_fault := None; query_fault := None; omit_empty_items := false |}.

Definition env_down : Env :=
  {| uuid := "17fb2d04-a9aa-43d9-a95a-a0c3a3a0aa9c";
     now := "2025-10-25T14:19:48.337Z";
     put_fault := Some (DynamoDB.StorageUnavailable "ProvisionedThroughputExceededException");
     query_fault := Some (DynamoDB.StorageUnavailable "ProvisionedThroughputExceededException");
     omit_empty_items := false |}.

Definition empty_world : World := {| table := []; console := [] |}.

(** A later invocation, with its own id and clock reading. *)
Definition env_retry : Env :=
  {| uuid := "9b2c1f50-0c1e-4a77-8f0e-3d2a6c5e7b11";
     now := "2025-10-25T14:19:49.002Z";
     put_fault := None; query_fault := None; omit_empty_items := false |}.

Definition entry (id ts group : string) : LogEntry :=
  {| logId := id; timestamp := ts; severity := VStr "info";
     message := VStr "m"; logType := group |}.

Definition some_world : World :=
  {| table := [entry "a" "2025-10-25T14:30:15.123Z" "LOG";
               entry "b" "2025-10-25T14:32:45.789Z" "LOG";
               entry "c" "2025-10-25T14:33:00.000Z" "AUDIT";
               entry "d" "2025-10-25T14:31:30.456Z" "LOG"];
     console := [] |}.

(** A well-formed request. *)
Definition payment_failed : Event :=
  post (object_text [("severity", quoted "error");
                     ("message", quoted "Payment processing failed")]).

(** A well-formed request that also supplies an id and a timestamp. *)
Definition forged : Event :=
  post (object_text [("logId", quoted "client-chosen");
                     ("timestamp", quoted "1999-01-01T00:00:00.000Z");
                     ("severity", quoted "info");
                     ("message", quoted "hello")]).

Definition bad_severity : Event :=
  post (object_text [("severity", quoted "fatal"); ("message", quoted "x")]).

Definition numeric_message : Event :=
  post (object_text [("severity", quoted "info"); ("message", "42")]).

Definition zero_message : Event :=
  post (object_text [("severity", quoted "info"); ("message", "0")]).

End Samples.

(* ================================================================== *)
(** ** Vocabulary of the statements *)
(* ================================================================== *)

Section Vocabulary.
Import JS Validator.

(** The reasons for which a payload is turned down. *)
Inductive Rejected (p : value) : Prop :=
| not_an_object :
    to_boolean p = false \/ typeof p <> "object" -> Rejected p
| severity_missing :
    to_boolean (get p "severity") = false -> Rejected p
| severity_invalid :
    includes VALID_SEVERITIES (get p "severity") = false -> Rejected p
| message_missing :
    to_boolean (get p "message") = false -> Rejected p
| message_not_text :
    typeof (get p "message") <> "string" -> Rejected p
| message_blank s :
    get p "message" = VStr s -> trim s = "" -> Rejected p.

(** The world once the handler has logged the event it received. *)
Definition received (ev : Event) (w : World) : World :=
  {| table := table w;
     console := (console w ++ [ConsoleLog "Received event:" (AEvent ev)])%list |}.

(** The record the handler builds from a body. *)
Definition entry_of (env : Env) (p : value) : LogEntry :=
  {| logId := uuid env;
     timestamp := now env;
     severity := get p "severity";
     message := get p "message";
     logType := "LOG" |}.

(** The message field is an own property of the payload: it was written in
    the request, with whatever value. *)
Definition message_present (p : value) : Prop :=
  exists members v, p = VObj members /\ lookup "message" members = Some v.

(** The reading of C4 as it is worded: a message that is present and not
    text is answered with the type error. *)
Definition present_non_text_gets_type_error : Prop :=
  forall (ev : Event) (env : Env) (w : World) (p : value),
    JSON.parse (Ingest.body_text ev) = Some p ->
    to_boolean p = true -> typeof p = "object" ->
    includes VALID_SEVERITIES (get p "severity") = true ->
    message_present p ->
    typeof (get p "message") <> "string" ->
    exists w',
      Ingest.handler ev env w
      = (Ok (Ingest.failure 400 "Message must be a string"), w').

(** The reading of C10 as it is worded: a body that is there and does not
    parse is answered with [Invalid JSON in request body]. *)
Definition unparseable_body_gets_invalid_json : Prop :=
  forall (ev : Event) (env : Env) (w : World) (text : string),
    body ev = Some text ->
    JSON.parse text = None ->
    exists w',
      Ingest.handler ev env w
      = (Ok (Ingest.failure 400 "Invalid JSON in request body"), w').

Definition recent_query : DynamoDB.QueryInput :=
  {| DynamoDB.KeyCondition := "LOG";
     DynamoDB.ScanIndexForward := false;
     DynamoDB.Limit := 100 |}.

(** Newest first. *)
Definition newer_or_same (a b : LogEntry) : Prop :=
  String.leb (timestamp b) (timestamp a) = true.

(** [a] comes no later than [b] in the order [le]. *)
Definition ordered_by (le : LogEntry -> LogEntry -> bool) (a b : LogEntry)
  : Prop := le a b = true.

(** What the validator guarantees of a record built from a valid body. *)
Definition well_formed_entry (r : LogEntry) : Prop :=
  logType r = "LOG" /\
  (exists sev, severity r = VStr sev /\ In sev VALID_SEVERITIES) /\
  (exists msg, message r = VStr msg /\ trim msg <> "").

(** The records of the group the read path asks for. *)
Definition log_group (t : DynamoDB.Table) : list LogEntry :=
  filter (fun r => logType r =? "LOG") t.

End Vocabulary.

Example parse_payment_failed :
  JSON.parse (Ingest.body_text Samples.payment_failed)
  = Some (JS.VObj [("severity", JS.VStr "error");
                   ("message", JS.VStr "Payment processing failed")]).
Proof. vm_compute. reflexivity. Qed.

Example parse_zero_message :
  JSON.parse (Ingest.body_text Samples.zero_message)
  = Some (JS.VObj [("severity", JS.VStr "info"); ("message", JS.VNum 0 0)]).
Proof. vm_compute. reflexivity. Qed.

Example parse_rejects_trailing_comma : JSON.parse "[1,]" = None.
Proof. vm_compute. reflexivity. Qed.

Example parse_nested :
  JSON.parse "[[1.5e+3], {}, null, true]"
  = Some (JS.VArr [JS.VArr [JS.VNum 15 2]; JS.VObj []; JS.VNull; JS.VBool true]).
Proof. vm_compute. reflexivity. Qed.

Example trim_example : JS.trim "  a b  " = "a b".
Proof. vm_compute. reflexivity. Qed.

(** U+00A0 and U+3000 are white space, U+200B is not. *)
Example trim_unicode :
  JS.trim (JS.of_codes [0xC2; 0xA0; 97; 0xE2; 0x80; 0x8B; 0xE3; 0x80; 0x80]%N)
  = JS.of_codes [97; 0xE2; 0x80; 0x8B]%N.
Proof. vm_compute. reflexivity. Qed.

(** White space inside the text stays, also next to its last bytes. *)
Example trim_keeps_inner_space :
  JS.trim "a bc" = "a bc" /\ JS.trim "  a bc  " = "a bc" /\
  JS.trim (JS.of_codes [120; 0xC2; 0xA0; 121]%N)
  = JS.of_codes [120; 0xC2; 0xA0; 121]%N /\
  JS.trim (JS.of_codes [0xE2; 0x80; 0x80; 120; 32; 121; 0xE3; 0x80; 0x80; 10]%N)
  = "x y".
Proof. vm_compute. repeat split; reflexivity. Qed.

Example surrogate_pair :
  JSON.parse (Samples.quoted "\ud83d\ude00")
  = Some (JS.VStr (JS.of_codes [0xF0; 0x9F; 0x98; 0x80]%N)).
Proof. vm_compute. reflexivity. Qed.

Example denormal_is_truthy :
  JS.to_boolean (JS.VNum 5 (-324)) = true /\
  JS.to_boolean (JS.VNum 2 (-324)) = false.
Proof. vm_compute. split; reflexivity. Qed.

Example round_trip :
  let w := snd (Ingest.handler Samples.payment_failed Samples.env_ok
                  Samples.empty_world) in
  option_map (fun r => map logId (logs (resp_body r)))
    (match fst (ReadRecent.handler {| body := None |} Samples.env_ok w) with
     | Ok r => Some r | Throw _ => None end)
  = Some ["17fb2d04-a9aa-43d9-a95a-a0c3a3a0aa9c"].
Proof. vm_compute. reflexivity. Qed.

(* ================================================================== *)
(** ** The validator *)
(* ================================================================== *)

Section ValidatorFacts.
Import JS Validator.


Lemma length_zero_iff (s : string) : (String.length s =? 0)%nat = true <-> s = "".
Proof.
  destruct s; simpl; split; intro H; try reflexivity; discriminate.
Qed.

Lemma typeof_string_inv (v : value) : typeof v = "string" -> exists s, v = VStr s.
Proof.
  destruct v; simpl; intro H; try discriminate. eauto.
Qed.

(** A payload is valid exactly when it passes the six checks. *)
Lemma valid_iff (p : value) :
  isValid (validateLogInput p) = true <->
  to_boolean p = true /\ typeof p = "object" /\
  to_boolean (get p "severity") = true /\
  includes VALID_SEVERITIES (get p "severity") = true /\
  to_boolean (get p "message") = true /\
  exists s, get p "message" = VStr s /\ trim s <> "".
Proof.
  unfold validateLogInput.
  destruct (to_boolean p) eqn:Hp; simpl.
  2: { split; [discriminate | intros [H _]; discriminate]. }
  destruct (String.eqb_spec (typeof p) "object") as [Ho | Ho]; simpl.
  2: { split; [discriminate | intros (_ & H & _); contradiction]. }
  destruct (to_boolean (get p "severity")) eqn:Hs; simpl.
  2: { split; [discriminate | intros (_ & _ & H & _); discriminate]. }
  destruct (includes VALID_SEVERITIES (get p "severity")) eqn:Hi; simpl.
  2: { split; [discriminate | intros (_ & _ & _ & H & _); discriminate]. }
  destruct (to_boolean (get p "message")) eqn:Hm; simpl.
  2: { split; [discriminate | intros (_ & _ & _ & _ & H & _); discriminate]. }
  destruct (String.eqb_spec (typeof (get p "message")) "string") as [Ht | Ht];
    simpl.
  2: { split; [discriminate |].
       intros (_ & _ & _ & _ & _ & s & Hg & _).
       rewrite Hg in Ht. simpl in Ht. contradiction. }
  destruct (typeof_string_inv _ Ht) as [s Hg]. rewrite Hg.
  destruct (String.length (trim s) =? 0)%nat eqn:Hl; simpl.
  - split; [discriminate |].
    intros (_ & _ & _ & _ & _ & s' & Hs' & Hne).
    injection Hs' as <-. apply length_zero_iff in Hl. contradiction.
  - split; [| reflexivity]. intros _.
    repeat split; try reflexivity; try assumption.
    exists s. split; [reflexivity |].
    intro He. apply length_zero_iff in He. congruence.
Qed.

Lemma rejected_invalid (p : value) :
  Rejected p -> isValid (validateLogInput p) = false.
Proof.
  intro H.
  destruct (isValid (validateLogInput p)) eqn:Hv; [| reflexivity].
  apply valid_iff in Hv.
  destruct Hv as (Hp & Ho & Hs & Hi & Hm & s & Hg & Hne).
  destruct H as [[H | H] | H | H | H | H | s' Hg' Ht]; try congruence.
  rewrite Hg in H. simpl in H. congruence.
Qed.

Lemma invalid_rejected (p : value) :
  isValid (validateLogInput p) = false -> Rejected p.
Proof.
  intro Hv.
  destruct (to_boolean p) eqn:Hp.
  2: { apply not_an_object. left. exact Hp. }
  destruct (String.eqb_spec (typeof p) "object") as [Ho | Ho].
  2: { apply not_an_object. right. assumption. }
  destruct (to_boolean (get p "severity")) eqn:Hs.
  2: { apply severity_missing. assumption. }
  destruct (includes VALID_SEVERITIES (get p "severity")) eqn:Hi.
  2: { apply severity_invalid. assumption. }
  destruct (to_boolean (get p "message")) eqn:Hm.
  2: { apply message_missing. assumption. }
  destruct (String.eqb_spec (typeof (get p "message")) "string") as [Ht | Ht].
  2: { apply message_not_text. assumption. }
  destruct (typeof_string_inv _ Ht) as [s Hg].
  destruct (String.eqb_spec (trim s) "") as [Hb | Hb].
  - apply (message_blank p s); assumption.
  - assert (isValid (validateLogInput p) = true) as Hc
      by (apply valid_iff; repeat split; try assumption; eauto).
    congruence.
Qed.

(** Every failure carries a reason. *)
Lemma invalid_has_reason (p : value) :
  isValid (validateLogInput p) = false ->
  exists msg, error (validateLogInput p) = Some msg.
Proof.
  unfold validateLogInput.
  repeat match goal with
         | |- context [if ?c then _ else _] => destruct c; simpl; eauto
         end.
  discriminate.
Qed.

(** A message made of spaces only is blank. *)
Lemma trim_spaces (n : nat) :
  trim (string_of_list_ascii (repeat " "%char n)) = "".
Proof.
  unfold trim.
  assert (forall k, trimStart (codes (string_of_list_ascii (repeat " "%char k))) = [])
    as H.
  { unfold codes. intro k. rewrite list_ascii_of_string_of_list_ascii.
    induction k as [| k IH]; [reflexivity |].
    simpl. exact IH. }
  rewrite H. reflexivity.
Qed.

End ValidatorFacts.

(* ================================================================== *)
(** ** The ingest handler *)
(* ================================================================== *)

Section IngestFacts.
Import JS Validator.


Lemma handler_malformed (ev : Event) (env : Env) (w : World) :
  JSON.parse (Ingest.body_text ev) = None ->
  Ingest.handler ev env w
  = (Ok (Ingest.failure 400 "Invalid JSON in request body"), received ev w).
Proof.
  intro Hp. unfold Ingest.handler, bind, try_catch, console_log, ret.
  rewrite Hp. reflexivity.
Qed.

Lemma handler_invalid (ev : Event) (env : Env) (w : World) (p : value) :
  JSON.parse (Ingest.body_text ev) = Some p ->
  isValid (validateLogInput p) = false ->
  Ingest.handler ev env w
  = (Ok {| statusCode := 400;
           headers := json_headers;
           resp_body := {| success := false; cr_logId := None;
                           cr_timestamp := None;
                           cr_message := error (validateLogInput p) |} |},
     received ev w).
Proof.
  intros Hp Hv. unfold Ingest.handler, bind, try_catch, console_log, ret.
  rewrite Hp. simpl. rewrite Hv. reflexivity.
Qed.

Lemma handler_fault (ev : Event) (env : Env) (w : World) (p : value)
  (e : DynamoDB.StorageError) :
  JSON.parse (Ingest.body_text ev) = Some p ->
  isValid (validateLogInput p) = true ->
  put_fault env = Some e ->
  Ingest.handler ev env w
  = (Ok (Ingest.failure 500 "Internal server error"),
     {| table := table w;
        console := (console (received ev w)
                    ++ [ConsoleError "Error processing request:"
                          (AError (StorageFault e))])%list |}).
Proof.
  intros Hp Hv Hf.
  unfold Ingest.handler, bind, try_catch, console_log, console_error, ret,
    uuidv4, Date_toISOString, send_put.
  rewrite Hp. simpl. rewrite Hv. simpl. rewrite Hf. reflexivity.
Qed.

Lemma handler_stored (ev : Event) (env : Env) (w : World) (p : value) :
  JSON.parse (Ingest.body_text ev) = Some p ->
  isValid (validateLogInput p) = true ->
  put_fault env = None ->
  Ingest.handler ev env w
  = (Ok {| statusCode := 200;
           headers := json_headers;
           resp_body := {| success := true;
                           cr_logId := Some (uuid env);
                           cr_timestamp := Some (now env);
                           cr_message := None |} |},
     {| table := DynamoDB.put (entry_of env p) (table w);
        console := (console (received ev w)
                    ++ [ConsoleLog "Successfully stored log entry:"
                          (AText (uuid env))])%list |}).
Proof.
  intros Hp Hv Hf.
  unfold Ingest.handler, bind, try_catch, console_log, console_error, ret,
    uuidv4, Date_toISOString, send_put.
  rewrite Hp. simpl. rewrite Hv. simpl. rewrite Hf. reflexivity.
Qed.

(** The handler always returns a response: nothing escapes its [catch]. *)
Lemma handler_total (ev : Event) (env : Env) (w : World) :
  exists resp w', Ingest.handler ev env w = (Ok resp, w').
Proof.
  destruct (JSON.parse (Ingest.body_text ev)) as [p |] eqn:Hp.
  - destruct (isValid (validateLogInput p)) eqn:Hv.
    + destruct (put_fault env) as [e |] eqn:Hf.
      * rewrite (handler_fault ev env w p e Hp Hv Hf). eauto.
      * rewrite (handler_stored ev env w p Hp Hv Hf). eauto.
    + rewrite (handler_invalid ev env w p Hp Hv). eauto.
  - rewrite (handler_malformed ev env w Hp). eauto.
Qed.

Lemma put_contains (item : LogEntry) (t : DynamoDB.Table) :
  In item (DynamoDB.put item t).
Proof.
  unfold DynamoDB.put. apply in_or_app. right. left. reflexivity.
Qed.

Lemma empty_object_text : JSON.parse "{}" = Some (VObj []).
Proof. vm_compute. reflexivity. Qed.

Lemma included_truthy (v : value) :
  includes VALID_SEVERITIES v = true -> to_boolean v = true.
Proof.
  destruct v; simpl; try discriminate.
  intro H. destruct s; [discriminate | reflexivity].
Qed.

(** C2. A payload on which validation fails (not an object, severity
    missing or outside the valid set, message missing, not text, or blank)
    is answered with status 400 and [success: false], the message being the
    validator's reason, and the table is left as it was. *)
Theorem ingest_invalid_no_write (ev : Event) (env : Env) (w : World)
  (p : value) :
  JSON.parse (Ingest.body_text ev) = Some p ->
  Rejected p ->
  exists resp w',
    Ingest.handler ev env w = (Ok resp, w') /\
    statusCode resp = 400%Z /\
    success (resp_body resp) = false /\
    cr_message (resp_body resp) = error (validateLogInput p) /\
    (exists reason, error (validateLogInput p) = Some reason) /\
    table w' = table w.
Proof.
  intros Hp Hr. apply rejected_invalid in Hr.
  rewrite (handler_invalid ev env w p Hp Hr).
  do 2 eexists. split; [reflexivity |]. simpl.
  repeat split. apply invalid_has_reason. exact Hr.
Qed.

Lemma ingest_invalid_no_write_witness :
  exists resp w',
    Ingest.handler Samples.bad_severity Samples.env_ok Samples.some_world
    = (Ok resp, w') /\
    statusCode resp = 400%Z /\
    success (resp_body resp) = false /\
    cr_message (resp_body resp)
    = error (validateLogInput
               (VObj [("severity", VStr "fatal"); ("message", VStr "x")])) /\
    (exists reason,
        error (validateLogInput
                 (VObj [("severity", VStr "fatal"); ("message", VStr "x")]))
        = Some reason) /\
    table w' = table Samples.some_world.
Proof.
  apply (ingest_invalid_no_write Samples.bad_severity Samples.env_ok
           Samples.some_world
           (VObj [("severity", VStr "fatal"); ("message", VStr "x")])).
  - vm_compute. reflexivity.
  - apply severity_invalid. vm_compute. reflexivity.
Defined.

(** C3. The record stored by a successful call has the id produced by the
    id generator and the timestamp read from the clock; only [severity] and
    [message] come from the payload, whatever other fields it carries.  The
    response reports the same id and timestamp. *)
Theorem ingest_assigns_id_and_timestamp (ev : Event) (env : Env) (w : World)
  (resp : Response CreateLogResponse) (w' : World) :
  Ingest.handler ev env w = (Ok resp, w') ->
  success (resp_body resp) = true ->
  exists p r,
    JSON.parse (Ingest.body_text ev) = Some p /\
    table w' = DynamoDB.put r (table w) /\
    In r (table w') /\
    logId r = uuid env /\
    timestamp r = now env /\
    severity r = get p "severity" /\
    message r = get p "message" /\
    logType r = "LOG" /\
    cr_logId (resp_body resp) = Some (uuid env) /\
    cr_timestamp (resp_body resp) = Some (now env).
Proof.
  intros Hh Hs.
  destruct (JSON.parse (Ingest.body_text ev)) as [p |] eqn:Hp.
  2: { rewrite (handler_malformed ev env w Hp) in Hh.
       injection Hh as <- <-. discriminate. }
  destruct (isValid (validateLogInput p)) eqn:Hv.
  2: { rewrite (handler_invalid ev env w p Hp Hv) in Hh.
       injection Hh as <- <-. discriminate. }
  destruct (put_fault env) as [e |] eqn:Hf.
  { rewrite (handler_fault ev env w p e Hp Hv Hf) in Hh.
    injection Hh as <- <-. discriminate. }
  rewrite (handler_stored ev env w p Hp Hv Hf) in Hh.
  injection Hh as <- <-.
  exists p, (entry_of env p). simpl.
  repeat split. apply put_contains.
Qed.

Lemma ingest_assigns_id_and_timestamp_witness :
  exists p r,
    JSON.parse (Ingest.body_text Samples.forged) = Some p /\
    table (snd (Ingest.handler Samples.forged Samples.env_ok Samples.some_world))
    = DynamoDB.put r (table Samples.some_world) /\
    In r (table (snd (Ingest.handler Samples.forged Samples.env_ok
                        Samples.some_world))) /\
    logId r = "17fb2d04-a9aa-43d9-a95a-a0c3a3a0aa9c" /\
    timestamp r = "2025-10-25T14:19:48.337Z" /\
    severity r = get p "severity" /\
    message r = get p "message" /\
    logType r = "LOG" /\
    cr_logId (resp_body
                {| statusCode := 200; headers := json_headers;
                   resp_body := {| success := true;
                                   cr_logId := Some (uuid Samples.env_ok);
                                   cr_timestamp := Some (now Samples.env_ok);
                                   cr_message := None |} |})
    = Some "17fb2d04-a9aa-43d9-a95a-a0c3a3a0aa9c" /\
    cr_timestamp (resp_body
                {| statusCode := 200; headers := json_headers;
                   resp_body := {| success := true;
                                   cr_logId := Some (uuid Samples.env_ok);
                                   cr_timestamp := Some (now Samples.env_ok);
                                   cr_message := None |} |})
    = Some "2025-10-25T14:19:48.337Z".
Proof.
  apply (ingest_assigns_id_and_timestamp Samples.forged Samples.env_ok
           Samples.some_world).
  - vm_compute. reflexivity.
  - reflexivity.
Defined.

(** The forged id and timestamp of the sample request are not stored. *)
Example forged_fields_ignored :
  map (fun r => (logId r, timestamp r))
    (table (snd (Ingest.handler Samples.forged Samples.env_ok
                   Samples.empty_world)))
  = [("17fb2d04-a9aa-43d9-a95a-a0c3a3a0aa9c", "2025-10-25T14:19:48.337Z")].
Proof. vm_compute. reflexivity. Qed.


(** C4, as worded, fails: a message that is present but falsy ([0] here) is
    reported as missing. *)
Lemma zero_message_reported_missing : ~ present_non_text_gets_type_error.
Proof.
  intro H.
  destruct (H Samples.zero_message Samples.env_ok Samples.empty_world
              (VObj [("severity", VStr "info"); ("message", VNum 0 0)]))
    as [w' Hw'].
  - vm_compute. reflexivity.
  - reflexivity.
  - reflexivity.
  - reflexivity.
  - exists [("severity", VStr "info"); ("message", VNum 0 0)], (VNum 0 0).
    split; reflexivity.
  - simpl. discriminate.
  - vm_compute in Hw'. discriminate.
Qed.

Example zero_message_response :
  fst (Ingest.handler Samples.zero_message Samples.env_ok Samples.empty_world)
  = Ok (Ingest.failure 400 "Missing required field: message").
Proof. vm_compute. reflexivity. Qed.

(** C4, amended. For a payload that is an object with a valid severity and
    whose message is not text, the validator tests presence by truthiness
    before it tests the type: a truthy message gets the reason
    [Message must be a string], a falsy one (null, false, 0, or no message)
    gets [Missing required field: message]; ingest answers 400 with that
    reason and writes nothing. *)
Theorem ingest_non_text_message (ev : Event) (env : Env) (w : World)
  (p : value) :
  JSON.parse (Ingest.body_text ev) = Some p ->
  to_boolean p = true -> typeof p = "object" ->
  includes VALID_SEVERITIES (get p "severity") = true ->
  typeof (get p "message") <> "string" ->
  validateLogInput p
  = invalid (if to_boolean (get p "message")
             then "Message must be a string"
             else "Missing required field: message") /\
  Ingest.handler ev env w
  = (Ok (Ingest.failure 400 (if to_boolean (get p "message")
                             then "Message must be a string"
                             else "Missing required field: message")),
     received ev w) /\
  table (received ev w) = table w.
Proof.
  intros Hp Ht Ho Hi Hn.
  assert (validateLogInput p
          = invalid (if to_boolean (get p "message")
                     then "Message must be a string"
                     else "Missing required field: message")) as Hv.
  { unfold validateLogInput.
    rewrite Ht, Ho, (included_truthy _ Hi), Hi. simpl.
    destruct (to_boolean (get p "message")); simpl; [| reflexivity].
    destruct (String.eqb_spec (typeof (get p "message")) "string") as [E | E];
      [contradiction | reflexivity]. }
  split; [exact Hv |]. split; [| reflexivity].
  rewrite (handler_invalid ev env w p Hp); rewrite Hv; reflexivity.
Qed.

Lemma ingest_non_text_message_witness :
  (validateLogInput (VObj [("severity", VStr "info"); ("message", VNum 42 0)])
   = invalid "Message must be a string" /\
   Ingest.handler Samples.numeric_message Samples.env_ok Samples.some_world
   = (Ok (Ingest.failure 400 "Message must be a string"),
      received Samples.numeric_message Samples.some_world) /\
   table (received Samples.numeric_message Samples.some_world)
   = table Samples.some_world) /\
  (validateLogInput (VObj [("severity", VStr "info"); ("message", VNull)])
   = invalid "Missing required field: message" /\
   Ingest.handler
     (Samples.post (Samples.object_text [("severity", Samples.quoted "info");
                                         ("message", "null")]))
     Samples.env_ok Samples.some_world
   = (Ok (Ingest.failure 400 "Missing required field: message"),
      received
        (Samples.post (Samples.object_text [("severity", Samples.quoted "info");
                                            ("message", "null")]))
        Samples.some_world) /\
   table (received
            (Samples.post (Samples.object_text [("severity", Samples.quoted "info");
                                                ("message", "null")]))
            Samples.some_world)
   = table Samples.some_world).
Proof.
  split.
  - apply (ingest_non_text_message Samples.numeric_message Samples.env_ok
             Samples.some_world
             (VObj [("severity", VStr "info"); ("message", VNum 42 0)])).
    + vm_compute. reflexivity.
    + reflexivity.
    + reflexivity.
    + reflexivity.
    + simpl. discriminate.
  - apply (ingest_non_text_message
             (Samples.post (Samples.object_text [("severity", Samples.quoted "info");
                                                 ("message", "null")]))
             Samples.env_ok Samples.some_world
             (VObj [("severity", VStr "info"); ("message", VNull)])).
    + vm_compute. reflexivity.
    + reflexivity.
    + reflexivity.
    + reflexivity.
    + simpl. discriminate.
Defined.




(** C10, as worded, fails: the empty text is not JSON, yet an empty body is
    read as the empty object. *)
Lemma empty_body_not_invalid_json : ~ unparseable_body_gets_invalid_json.
Proof.
  intro H.
  destruct (H (Samples.post "") Samples.env_ok Samples.empty_world ""
              eq_refl eq_refl) as [w' Hw'].
  vm_compute in Hw'. discriminate.
Qed.

(** C10, amended. A body that is absent or empty is read as the empty
    object and answered with 400 and [Missing required field: severity]; a
    body that is not empty and does not parse is answered with 400,
    [success: false] and [Invalid JSON in request body]. Neither writes. *)
Theorem ingest_absent_or_malformed_body (ev : Event) (env : Env) (w : World) :
  (body ev = None \/ body ev = Some "" ->
   Ingest.body_text ev = "{}" /\
   Ingest.handler ev env w
   = (Ok (Ingest.failure 400 "Missing required field: severity"),
      received ev w)) /\
  (forall text, body ev = Some text -> text <> "" ->
   JSON.parse text = None ->
   Ingest.handler ev env w
   = (Ok (Ingest.failure 400 "Invalid JSON in request body"),
      received ev w)) /\
  table (received ev w) = table w /\
  success (resp_body (Ingest.failure 400 "Missing required field: severity"))
  = false /\
  success (resp_body (Ingest.failure 400 "Invalid JSON in request body"))
  = false.
Proof.
  split; [| split; [| repeat split]].
  - intro Hb.
    assert (Ingest.body_text ev = "{}") as Ht.
    { unfold Ingest.body_text. destruct Hb as [Hb | Hb]; rewrite Hb; reflexivity. }
    split; [exact Ht |].
    rewrite (handler_invalid ev env w (VObj [])).
    + reflexivity.
    + rewrite Ht. exact empty_object_text.
    + reflexivity.
  - intros text Hb Hne Hp.
    apply handler_malformed.
    unfold Ingest.body_text. rewrite Hb.
    destruct (String.eqb_spec text "") as [E | E]; [contradiction | exact Hp].
Qed.

Lemma ingest_absent_or_malformed_body_witness :
  (Ingest.body_text {| body := None |} = "{}" /\
   Ingest.handler {| body := None |} Samples.env_ok Samples.some_world
   = (Ok (Ingest.failure 400 "Missing required field: severity"),
      received {| body := None |} Samples.some_world)) /\
  Ingest.handler (Samples.post "{severity:") Samples.env_ok Samples.some_world
  = (Ok (Ingest.failure 400 "Invalid JSON in request body"),
     received (Samples.post "{severity:") Samples.some_world).
Proof.
  split.
  - apply (proj1 (ingest_absent_or_malformed_body {| body := None |}
                    Samples.env_ok Samples.some_world)).
    left. reflexivity.
  - apply (proj1 (proj2 (ingest_absent_or_malformed_body
                           (Samples.post "{severity:")
                           Samples.env_ok Samples.some_world))
             "{severity:").
    + reflexivity.
    + discriminate.
    + vm_compute. reflexivity.
Defined.

(** C9. An array payload passes the object check, [typeof] of an array being
    [object]: for [[]], and for any array, the validator reports the missing
    severity. *)
Theorem array_payload_passes_object_check :
  JSON.parse "[]" = Some (VArr []) /\
  typeof (VArr []) = "object" /\
  validateLogInput (VArr [])
  = {| isValid := false; error := Some "Missing required field: severity" |} /\
  error (validateLogInput (VArr []))
  <> Some "Request body must be a valid JSON object" /\
  forall elems,
    validateLogInput (VArr elems)
    = {| isValid := false; error := Some "Missing required field: severity" |}.
Proof.
  split; [vm_compute; reflexivity |].
  split; [reflexivity |].
  split; [reflexivity |].
  split; [simpl; discriminate |].
  intro elems. reflexivity.
Qed.

End IngestFacts.

(* ================================================================== *)
(** ** The order of the index *)
(* ================================================================== *)

Section StringOrder.

Lemma string_leb_trans (a b c : string) :
  String.leb a b = true -> String.leb b c = true -> String.leb a c = true.
Proof.
  unfold String.leb. revert b c.
  induction a as [| x a IH]; intros [| y b] [| z c]; simpl; try easy.
  unfold Ascii.compare.
  destruct (N.compare_spec (N_of_ascii x) (N_of_ascii y)) as [E1 | L1 | G1];
    destruct (N.compare_spec (N_of_ascii y) (N_of_ascii z)) as [E2 | L2 | G2];
    destruct (N.compare_spec (N_of_ascii x) (N_of_ascii z)) as [E3 | L3 | G3];
    try easy; try lia.
  apply IH.
Qed.

End StringOrder.

Section IndexSort.

Variable le : LogEntry -> LogEntry -> bool.
Hypothesis le_total : forall a b, le a b = true \/ le b a = true.
Hypothesis le_trans : forall a b c, le a b = true -> le b c = true -> le a c = true.

Lemma insert_perm (x : LogEntry) (l : list LogEntry) :
  Permutation (x :: l) (DynamoDB.insert le x l).
Proof.
  induction l as [| y r IH]; simpl.
  - apply Permutation_refl.
  - destruct (le x y).
    + apply Permutation_refl.
    + eapply perm_trans; [apply perm_swap |].
      apply perm_skip. exact IH.
Qed.

Lemma index_sort_perm (l : list LogEntry) :
  Permutation l (DynamoDB.index_sort le l).
Proof.
  induction l as [| x r IH]; simpl.
  - apply perm_nil.
  - eapply perm_trans; [apply perm_skip; exact IH | apply insert_perm].
Qed.

Lemma insert_sorted (x : LogEntry) (l : list LogEntry) :
  StronglySorted (ordered_by le) l -> StronglySorted (ordered_by le) (DynamoDB.insert le x l).
Proof.
  induction l as [| y r IH]; simpl; intro Hs.
  - constructor; constructor.
  - apply StronglySorted_inv in Hs. destruct Hs as [Hr Hy].
    destruct (le x y) eqn:Hxy.
    + constructor.
      * constructor; assumption.
      * constructor; [exact Hxy |].
        eapply Forall_impl; [| exact Hy].
        intros z Hz. exact (le_trans x y z Hxy Hz).
    + constructor.
      * apply IH. exact Hr.
      * eapply Permutation_Forall; [apply insert_perm |].
        constructor; [| exact Hy].
        destruct (le_total x y) as [H | H]; [congruence | exact H].
Qed.

Lemma index_sort_sorted (l : list LogEntry) :
  StronglySorted (ordered_by le) (DynamoDB.index_sort le l).
Proof.
  induction l as [| x r IH]; simpl.
  - constructor.
  - apply insert_sorted. exact IH.
Qed.

(** A sorted list split in two: both parts are sorted and the first part
    comes before the second. *)
Lemma sorted_app_inv (l1 l2 : list LogEntry) :
  StronglySorted (ordered_by le) (l1 ++ l2) ->
  StronglySorted (ordered_by le) l1 /\ Forall (fun a => Forall (ordered_by le a) l2) l1.
Proof.
  induction l1 as [| x l1 IH]; simpl; intro Hs.
  - split; constructor.
  - apply StronglySorted_inv in Hs. destruct Hs as [Hr Hx].
    destruct (IH Hr) as [H1 H2].
    apply Forall_app in Hx. destruct Hx as [Hx1 Hx2].
    split; constructor; assumption.
Qed.

End IndexSort.

Lemma scan_order_total (forward : bool) (a b : LogEntry) :
  DynamoDB.scan_order forward a b = true \/
  DynamoDB.scan_order forward b a = true.
Proof.
  unfold DynamoDB.scan_order. destruct forward; apply String.leb_total.
Qed.

Lemma scan_order_trans (forward : bool) (a b c : LogEntry) :
  DynamoDB.scan_order forward a b = true ->
  DynamoDB.scan_order forward b c = true ->
  DynamoDB.scan_order forward a c = true.
Proof.
  unfold DynamoDB.scan_order. destruct forward; intros H1 H2.
  - exact (string_leb_trans _ _ _ H1 H2).
  - exact (string_leb_trans _ _ _ H2 H1).
Qed.

(* ================================================================== *)
(** ** The read-recent handler *)
(* ================================================================== *)

Section ReadRecentFacts.


Lemma items_or_empty (omit : bool) (q : DynamoDB.QueryInput)
  (t : DynamoDB.Table) :
  match DynamoDB.Items (DynamoDB.query omit q t) with
  | Some items => items
  | None => []
  end = DynamoDB.scan q t.
Proof.
  unfold DynamoDB.query.
  destruct (DynamoDB.scan q t); [destruct omit |]; reflexivity.
Qed.

Lemma handler_read (ev : Event) (env : Env) (w : World) :
  query_fault env = None ->
  ReadRecent.handler ev env w
  = (Ok {| statusCode := 200;
           headers := json_headers;
           resp_body :=
             {| count := List.length (DynamoDB.scan recent_query (table w));
                logs := DynamoDB.scan recent_query (table w);
                rr_error := None |} |},
     {| table := table w;
        console :=
          (console (received ev w)
           ++ [ConsoleLog "Retrieved log entries"
                 (ACount (List.length (DynamoDB.scan recent_query (table w))))])%list |}).
Proof.
  intro Hf.
  unfold ReadRecent.handler, bind, try_catch, console_log, ret, send_query.
  simpl. rewrite Hf.
  fold recent_query. rewrite items_or_empty. reflexivity.
Qed.

Lemma handler_read_fault (ev : Event) (env : Env) (w : World)
  (e : DynamoDB.StorageError) :
  query_fault env = Some e ->
  ReadRecent.handler ev env w
  = (Ok {| statusCode := 500;
           headers := json_headers;
           resp_body := {| count := 0; logs := [];
                           rr_error := Some "Internal server error" |} |},
     {| table := table w;
        console :=
          (console (received ev w)
           ++ [ConsoleError "Error retrieving logs:"
                 (AError (StorageFault e))])%list |}).
Proof.
  intro Hf.
  unfold ReadRecent.handler, bind, try_catch, console_log, console_error, ret,
    send_query.
  simpl. rewrite Hf. reflexivity.
Qed.

(** C1. When the query goes through, the records returned all carry the
    group [LOG], are ordered by timestamp, newest first, and are at most 100;
    they are the newest ones of their group in the table: the records of the
    group left out are no newer than any returned one, and are left out only
    when 100 are returned. *)
Theorem read_recent_newest_first (ev : Event) (env : Env) (w : World) :
  query_fault env = None ->
  exists resp w',
    ReadRecent.handler ev env w = (Ok resp, w') /\
    statusCode resp = 200%Z /\
    Forall (fun r => logType r = "LOG") (logs (resp_body resp)) /\
    StronglySorted newer_or_same (logs (resp_body resp)) /\
    List.length (logs (resp_body resp)) <= 100 /\
    exists older,
      Permutation (logs (resp_body resp) ++ older)
        (filter (fun r => logType r =? "LOG") (table w)) /\
      Forall (fun r => Forall (newer_or_same r) older) (logs (resp_body resp)) /\
      (older <> [] -> List.length (logs (resp_body resp)) = 100).
Proof.
  intro Hf. rewrite (handler_read ev env w Hf).
  do 2 eexists. split; [reflexivity |].
  cbn [resp_body logs statusCode].
  split; [reflexivity |].
  unfold DynamoDB.scan, recent_query.
  cbn [DynamoDB.Limit DynamoDB.ScanIndexForward DynamoDB.KeyCondition].
  set (group := filter (fun x => logType x =? "LOG") (table w)).
  set (sorted := DynamoDB.index_sort (DynamoDB.scan_order false) group).
  assert (Permutation group sorted) as Hperm by apply index_sort_perm.
  assert (StronglySorted newer_or_same sorted) as Hsorted.
  { apply (index_sort_sorted (DynamoDB.scan_order false)).
    - apply scan_order_total.
    - apply scan_order_trans. }
  assert (Forall (fun r => logType r = "LOG") sorted) as Hgroup.
  { eapply Permutation_Forall; [exact Hperm |].
    apply Forall_forall. intros r Hr.
    apply filter_In in Hr. destruct Hr as [_ Hr].
    apply String.eqb_eq. exact Hr. }
  rewrite <- (firstn_skipn 100 sorted) in Hsorted, Hgroup.
  apply (sorted_app_inv (DynamoDB.scan_order false)) in Hsorted.
  destruct Hsorted as [Hs1 Hs2].
  apply Forall_app in Hgroup. destruct Hgroup as [Hg1 _].
  split; [exact Hg1 |].
  split; [exact Hs1 |].
  split; [apply firstn_le_length |].
  exists (skipn 100 sorted).
  split; [rewrite firstn_skipn; apply Permutation_sym; exact Hperm |].
  split; [exact Hs2 |].
  intro Hne. rewrite length_firstn.
  destruct (Nat.le_gt_cases (List.length sorted) 100) as [Hle | Hgt].
  - exfalso. apply Hne. apply skipn_all2. exact Hle.
  - lia.
Qed.

Lemma read_recent_newest_first_witness :
  exists resp w',
    ReadRecent.handler {| body := None |} Samples.env_ok Samples.some_world
    = (Ok resp, w') /\
    statusCode resp = 200%Z /\
    Forall (fun r => logType r = "LOG") (logs (resp_body resp)) /\
    StronglySorted newer_or_same (logs (resp_body resp)) /\
    List.length (logs (resp_body resp)) <= 100 /\
    exists older,
      Permutation (logs (resp_body resp) ++ older)
        (filter (fun r => logType r =? "LOG") (table Samples.some_world)) /\
      Forall (fun r => Forall (newer_or_same r) older) (logs (resp_body resp)) /\
      (older <> [] -> List.length (logs (resp_body resp)) = 100).
Proof.
  apply (read_recent_newest_first {| body := None |} Samples.env_ok
           Samples.some_world).
  reflexivity.
Defined.

Example read_recent_sample :
  option_map (fun r => map logId (logs (resp_body r)))
    (match fst (ReadRecent.handler {| body := None |} Samples.env_ok
                  Samples.some_world) with
     | Ok r => Some r | Throw _ => None end)
  = Some ["b"; "d"; "a"].
Proof. vm_compute. reflexivity. Qed.

(** C6. When the query fails, whatever the failure, the handler answers with
    status 500 and the body [{count: 0, logs: [], error}], and throws
    nothing. *)
Theorem read_recent_fault_shape (ev : Event) (env : Env) (w : World)
  (fault : DynamoDB.StorageError) :
  query_fault env = Some fault ->
  exists w',
    ReadRecent.handler ev env w
    = (Ok {| statusCode := 500;
             headers := json_headers;
             resp_body := {| count := 0; logs := [];
                             rr_error := Some "Internal server error" |} |},
       w') /\
    table w' = table w.
Proof.
  intro Hf. rewrite (handler_read_fault ev env w fault Hf).
  eexists. split; reflexivity.
Qed.

Lemma read_recent_fault_shape_witness :
  exists w',
    ReadRecent.handler {| body := None |} Samples.env_down Samples.some_world
    = (Ok {| statusCode := 500;
             headers := json_headers;
             resp_body := {| count := 0; logs := [];
                             rr_error := Some "Internal server error" |} |},
       w') /\
    table w' = table Samples.some_world.
Proof.
  apply (read_recent_fault_shape {| body := None |} Samples.env_down
           Samples.some_world
           (DynamoDB.StorageUnavailable "ProvisionedThroughputExceededException")).
  reflexivity.
Defined.

(** C7. On an empty table the handler answers with status 200, count 0, an
    empty list and no error, whether or not the storage client leaves
    [Items] out of an empty result. *)
Theorem read_recent_empty_store (ev : Event) (env : Env) (w : World) :
  table w = [] ->
  query_fault env = None ->
  exists w',
    ReadRecent.handler ev env w
    = (Ok {| statusCode := 200;
             headers := json_headers;
             resp_body := {| count := 0; logs := []; rr_error := None |} |},
       w') /\
    table w' = [].
Proof.
  intros Ht Hf. rewrite (handler_read ev env w Hf).
  rewrite Ht. eexists. split; reflexivity.
Qed.

Lemma read_recent_empty_store_witness :
  exists w',
    ReadRecent.handler {| body := None |} Samples.env_ok Samples.empty_world
    = (Ok {| statusCode := 200;
             headers := json_headers;
             resp_body := {| count := 0; logs := []; rr_error := None |} |},
       w') /\
    table w' = [].
Proof.
  apply (read_recent_empty_store {| body := None |} Samples.env_ok
           Samples.empty_world); reflexivity.
Defined.

(** C8. The handler always returns a response, and in it, on the success
    path and on the failure path alike, [count] is the length of [logs]. *)
Theorem read_recent_count_is_length (ev : Event) (env : Env) (w : World) :
  exists resp w',
    ReadRecent.handler ev env w = (Ok resp, w') /\
    count (resp_body resp) = List.length (logs (resp_body resp)).
Proof.
  destruct (query_fault env) as [e |] eqn:Hf.
  - rewrite (handler_read_fault ev env w e Hf).
    do 2 eexists. split; reflexivity.
  - rewrite (handler_read ev env w Hf).
    do 2 eexists. split; reflexivity.
Qed.

End ReadRecentFacts.

(* ================================================================== *)
(** ** More on the validator *)
(* ================================================================== *)

Section ValidatorEdges.
Import JS Validator.

Lemma valid_result (p : value) :
  isValid (validateLogInput p) = true ->
  validateLogInput p = {| isValid := true; error := None |}.
Proof.
  unfold validateLogInput.
  repeat match goal with
         | |- context [if ?c then _ else _] =>
             destruct c; simpl; try discriminate
         end.
  reflexivity.
Qed.

Lemma includes_inv (arr : list string) (v : value) :
  includes arr v = true -> exists s, v = VStr s /\ In s arr.
Proof.
  destruct v; simpl; try discriminate.
  intro H. apply existsb_exists in H. destruct H as (x & Hx & He).
  apply String.eqb_eq in He. subst x. eauto.
Qed.

Lemma includes_intro (arr : list string) (s : string) :
  In s arr -> includes arr (VStr s) = true.
Proof.
  intro H. simpl. apply existsb_exists. exists s.
  split; [exact H | apply String.eqb_refl].
Qed.

Lemma get_string_inv (members : list (string * value)) (k s : string) :
  get (VObj members) k = VStr s -> lookup k members = Some (VStr s).
Proof.
  unfold get. destruct (lookup k members); intro H; congruence.
Qed.

Lemma valid_is_object (p : value) :
  isValid (validateLogInput p) = true -> exists members, p = VObj members.
Proof.
  intro H. apply valid_iff in H. destruct H as (Ht & _ & Hs & _).
  destruct p; simpl in *; try discriminate. eauto.
Qed.

Lemma trim_nonblank_nonempty (s : string) : trim s <> "" -> s <> "".
Proof.
  intros H E. subst s. apply H. reflexivity.
Qed.

(** X1. The validator accepts exactly the objects whose [severity] is one
    of the three valid strings and whose [message] is a string that is not
    blank once trimmed; it then returns [isValid: true] without an error. *)
Theorem validate_accepts_exactly (p : value) :
  validateLogInput p = {| isValid := true; error := None |} <->
  exists members sev msg,
    p = VObj members /\
    lookup "severity" members = Some (VStr sev) /\
    In sev VALID_SEVERITIES /\
    lookup "message" members = Some (VStr msg) /\
    trim msg <> "".
Proof.
  split.
  - intro H.
    assert (isValid (validateLogInput p) = true) as Hv by (rewrite H; reflexivity).
    destruct (valid_is_object p Hv) as [members ->].
    apply valid_iff in Hv.
    destruct Hv as (_ & _ & _ & Hi & _ & msg & Hg & Hne).
    apply includes_inv in Hi. destruct Hi as (sev & Hsev & Hin).
    exists members, sev, msg.
    repeat split; try assumption; apply get_string_inv; assumption.
  - intros (members & sev & msg & -> & Hs & Hin & Hm & Hne).
    apply valid_result. apply valid_iff.
    assert (get (VObj members) "severity" = VStr sev) as Hgs
      by (unfold get; rewrite Hs; reflexivity).
    assert (get (VObj members) "message" = VStr msg) as Hgm
      by (unfold get; rewrite Hm; reflexivity).
    rewrite Hgs, Hgm.
    assert (includes VALID_SEVERITIES (VStr sev) = true) as Hi
      by (apply includes_intro; exact Hin).
    repeat split; try reflexivity.
    + apply included_truthy. exact Hi.
    + exact Hi.
    + apply trim_nonblank_nonempty in Hne.
      simpl. destruct msg; [contradiction | reflexivity].
    + exists msg. split; [reflexivity | exact Hne].
Qed.

(** X2. In every result of the validator, [error] is absent exactly when
    [isValid] is true, and carries a reason exactly when it is false. *)
Theorem validation_result_consistent (input : value) :
  (isValid (validateLogInput input) = true <->
   error (validateLogInput input) = None) /\
  (isValid (validateLogInput input) = false <->
   exists reason, error (validateLogInput input) = Some reason).
Proof.
  unfold validateLogInput.
  repeat match goal with
         | |- context [if ?c then _ else _] => destruct c; simpl
         end;
    (split; split; intro H;
     try reflexivity; try discriminate; eauto;
     destruct H as [reason H]; discriminate).
Qed.

(** X3. A payload that is neither an object nor an array (undefined, null,
    a boolean, a number, a string) is turned down with the object reason. *)
Theorem primitive_payload_rejected (input : value) :
  (forall members, input <> VObj members) ->
  (forall elems, input <> VArr elems) ->
  validateLogInput input = invalid "Request body must be a valid JSON object".
Proof.
  intros Ho Ha. unfold validateLogInput.
  destruct input; simpl; try reflexivity.
  - destruct b; reflexivity.
  - destruct (number_is_zero m e); reflexivity.
  - destruct s; reflexivity.
  - exfalso. exact (Ha elems eq_refl).
  - exfalso. exact (Ho members eq_refl).
Qed.

Lemma primitive_payload_rejected_witness :
  validateLogInput (VStr "severity=info") 
  = invalid "Request body must be a valid JSON object".
Proof.
  apply (primitive_payload_rejected (VStr "severity=info")).
  - intros members H. discriminate H.
  - intros elems H. discriminate H.
Defined.

(** X4. The first failure wins: when the severity of an object is not one
    of the valid strings, the reason is about the severity, missing if it is
    falsy and invalid otherwise, whatever the message is. *)
Theorem severity_checked_before_message (p : value) :
  to_boolean p = true -> typeof p = "object" ->
  includes VALID_SEVERITIES (get p "severity") = false ->
  validateLogInput p
  = invalid (if to_boolean (get p "severity")
             then "Invalid severity. Must be one of: info, warning, error"
             else "Missing required field: severity").
Proof.
  intros Ht Ho Hi. unfold validateLogInput.
  rewrite Ht, Ho. simpl.
  destruct (to_boolean (get p "severity")); simpl; [| reflexivity].
  rewrite Hi. reflexivity.
Qed.

Lemma severity_checked_before_message_witness :
  validateLogInput (VObj [("severity", VStr "INFO")])
  = invalid (if to_boolean (get (VObj [("severity", VStr "INFO")]) "severity")
             then "Invalid severity. Must be one of: info, warning, error"
             else "Missing required field: severity").
Proof.
  apply (severity_checked_before_message (VObj [("severity", VStr "INFO")]));
    reflexivity.
Defined.

(** X5. With a valid severity, a message that is a string is reported
    missing when it is empty, empty when it is made of white space only, and
    is accepted otherwise. *)
Theorem string_message_outcome (p : value) (s : string) :
  to_boolean p = true -> typeof p = "object" ->
  includes VALID_SEVERITIES (get p "severity") = true ->
  get p "message" = VStr s ->
  validateLogInput p
  = if s =? "" then invalid "Missing required field: message"
    else if trim s =? "" then invalid "Message cannot be empty"
    else {| isValid := true; error := None |}.
Proof.
  intros Ht Ho Hi Hg. unfold validateLogInput.
  rewrite Ht, Ho, (included_truthy _ Hi), Hi, Hg. simpl.
  destruct s as [| c s']; [reflexivity |]. simpl.
  destruct (trim (String c s')); reflexivity.
Qed.

Lemma string_message_outcome_witness :
  validateLogInput (VObj [("severity", VStr "warning"); ("message", VStr "   ")])
  = if "   " =? "" then invalid "Missing required field: message"
    else if trim "   " =? "" then invalid "Message cannot be empty"
    else {| isValid := true; error := None |}.
Proof.
  apply (string_message_outcome
           (VObj [("severity", VStr "warning"); ("message", VStr "   ")])
           "   "); reflexivity.
Defined.

End ValidatorEdges.

(* ================================================================== *)
(** ** More on the ingest handler *)
(* ================================================================== *)

Section IngestBehaviour.
Import JS Validator.

(** The three ways the handler ends, by what decides them. *)
Lemma handler_cases (ev : Event) (env : Env) (w : World) :
  (JSON.parse (Ingest.body_text ev) = None /\
   Ingest.handler ev env w
   = (Ok (Ingest.failure 400 "Invalid JSON in request body"), received ev w))
  \/
  (exists p reason,
      JSON.parse (Ingest.body_text ev) = Some p /\
      isValid (validateLogInput p) = false /\
      error (validateLogInput p) = Some reason /\
      Ingest.handler ev env w
      = (Ok (Ingest.failure 400 reason), received ev w))
  \/
  (exists p e,
      JSON.parse (Ingest.body_text ev) = Some p /\
      isValid (validateLogInput p) = true /\
      put_fault env = Some e /\
      Ingest.handler ev env w
      = (Ok (Ingest.failure 500 "Internal server error"),
         {| table := table w;
            console := (console (received ev w)
                        ++ [ConsoleError "Error processing request:"
                              (AError (StorageFault e))])%list |}))
  \/
  (exists p,
      JSON.parse (Ingest.body_text ev) = Some p /\
      isValid (validateLogInput p) = true /\
      put_fault env = None /\
      Ingest.handler ev env w
      = (Ok {| statusCode := 200;
               headers := json_headers;
               resp_body := {| success := true;
                               cr_logId := Some (uuid env);
                               cr_timestamp := Some (now env);
                               cr_message := None |} |},
         {| table := DynamoDB.put (entry_of env p) (table w);
            console := (console (received ev w)
                        ++ [ConsoleLog "Successfully stored log entry:"
                              (AText (uuid env))])%list |})).
Proof.
  destruct (JSON.parse (Ingest.body_text ev)) as [p |] eqn:Hp.
  2: { left. split; [reflexivity | apply handler_malformed; exact Hp]. }
  destruct (isValid (validateLogInput p)) eqn:Hv.
  2: { right. left.
       destruct (invalid_has_reason p Hv) as [reason Hr].
       exists p, reason. repeat split; try assumption.
       rewrite (handler_invalid ev env w p Hp Hv), Hr. reflexivity. }
  destruct (put_fault env) as [e |] eqn:Hf.
  - right. right. left. exists p, e. repeat split; try assumption.
    apply (handler_fault ev env w p e Hp Hv Hf).
  - right. right. right. exists p. repeat split; try assumption.
    apply (handler_stored ev env w p Hp Hv Hf).
Qed.

(** X6. Whatever the event and the platform do, the handler returns a
    response of one of two shapes: status 200 with [success: true], the id
    and the timestamp and no message, or status 400 or 500 with
    [success: false], a message and neither id nor timestamp. *)
Theorem ingest_response_shape (ev : Event) (env : Env) (w : World) :
  exists resp w',
    Ingest.handler ev env w = (Ok resp, w') /\
    headers resp = [("Content-Type", "application/json")] /\
    ((statusCode resp = 200%Z /\
      success (resp_body resp) = true /\
      cr_logId (resp_body resp) = Some (uuid env) /\
      cr_timestamp (resp_body resp) = Some (now env) /\
      cr_message (resp_body resp) = None)
     \/
     ((statusCode resp = 400%Z \/ statusCode resp = 500%Z) /\
      success (resp_body resp) = false /\
      cr_logId (resp_body resp) = None /\
      cr_timestamp (resp_body resp) = None /\
      exists reason, cr_message (resp_body resp) = Some reason)).
Proof.
  destruct (handler_cases ev env w)
    as [[_ H] | [(p & reason & _ & _ & _ & H)
       | [(p & e & _ & _ & _ & H) | (p & _ & _ & _ & H)]]];
    rewrite H; do 2 eexists; (split; [reflexivity |]); simpl;
    (split; [reflexivity |]).
  - right. repeat split; eauto.
  - right. repeat split; eauto.
  - right. repeat split; eauto.
  - left. repeat split.
Qed.

(** X7. The status tells what happened: 400 exactly when the body does not
    parse or does not validate, 500 exactly when a valid body met a failing
    put, 200 exactly when a valid body was put; and a call answered with 400
    never reaches the put, so it leaves the table as it was. *)
Theorem ingest_status_classification (ev : Event) (env : Env) (w : World)
  (resp : Response CreateLogResponse) (w' : World) :
  Ingest.handler ev env w = (Ok resp, w') ->
  (statusCode resp = 400%Z <->
   JSON.parse (Ingest.body_text ev) = None \/
   exists p, JSON.parse (Ingest.body_text ev) = Some p /\
             isValid (validateLogInput p) = false) /\
  (statusCode resp = 500%Z <->
   exists p e, JSON.parse (Ingest.body_text ev) = Some p /\
               isValid (validateLogInput p) = true /\
               put_fault env = Some e) /\
  (statusCode resp = 200%Z <->
   exists p, JSON.parse (Ingest.body_text ev) = Some p /\
             isValid (validateLogInput p) = true /\
             put_fault env = None) /\
  (statusCode resp = 400%Z -> table w' = table w).
Proof.
  intro Hh.
  destruct (handler_cases ev env w)
    as [[Hp H] | [(p & reason & Hp & Hv & _ & H)
       | [(p & e & Hp & Hv & Hf & H) | (p & Hp & Hv & Hf & H)]]];
    rewrite H in Hh; injection Hh as <- <-; simpl.
  - repeat split; try (intro; discriminate); try reflexivity.
    + intros _. left. exact Hp.
    + intros (q & e & Hq & _). congruence.
    + intros (q & Hq & _). congruence.
  - repeat split; try (intro; discriminate); try reflexivity.
    + intros _. right. exists p. split; assumption.
    + intros (q & e & Hq & Hvq & _). congruence.
    + intros (q & Hq & Hvq & _). congruence.
  - repeat split; try (intro; discriminate); try reflexivity.
    + intros [Hq | (q & Hq & Hvq)]; congruence.
    + intros _. exists p, e. repeat split; assumption.
    + intros (q & Hq & Hvq & Hfq). congruence.
  - repeat split; try (intro; discriminate).
    + intros [Hq | (q & Hq & Hvq)]; congruence.
    + intros (q & e & Hq & Hvq & Hfq). congruence.
    + intros _. exists p. repeat split; assumption.
Qed.

Lemma ingest_status_classification_witness :
  (400%Z = 400%Z <->
   JSON.parse (Ingest.body_text Samples.bad_severity) = None \/
   exists p, JSON.parse (Ingest.body_text Samples.bad_severity) = Some p /\
             isValid (validateLogInput p) = false) /\
  (400%Z = 500%Z <->
   exists p e, JSON.parse (Ingest.body_text Samples.bad_severity) = Some p /\
               isValid (validateLogInput p) = true /\
               put_fault Samples.env_ok = Some e) /\
  (400%Z = 200%Z <->
   exists p, JSON.parse (Ingest.body_text Samples.bad_severity) = Some p /\
             isValid (validateLogInput p) = true /\
             put_fault Samples.env_ok = None) /\
  (400%Z = 400%Z ->
   table (received Samples.bad_severity Samples.some_world)
   = table Samples.some_world).
Proof.
  apply (ingest_status_classification Samples.bad_severity Samples.env_ok
           Samples.some_world
           {| statusCode := 400;
              headers := json_headers;
              resp_body :=
                {| success := false; cr_logId := None; cr_timestamp := None;
                   cr_message :=
                     Some "Invalid severity. Must be one of: info, warning, error" |} |}
           (received Samples.bad_severity Samples.some_world)).
  vm_compute. reflexivity.
Defined.

Lemma validate_same_fields (m1 m2 : list (string * value)) :
  lookup "severity" m1 = lookup "severity" m2 ->
  lookup "message" m1 = lookup "message" m2 ->
  validateLogInput (VObj m1) = validateLogInput (VObj m2).
Proof.
  intros Hs Hm. unfold validateLogInput, get. rewrite Hs, Hm. reflexivity.
Qed.

(** X8. The handler reads nothing of the body but [severity] and
    [message]: two requests whose bodies are objects with the same two
    fields get the same response and leave the same table, whatever else the
    bodies carry. *)
Theorem ingest_reads_two_fields_only (ev1 ev2 : Event) (env : Env) (w : World)
  (m1 m2 : list (string * value)) :
  JSON.parse (Ingest.body_text ev1) = Some (VObj m1) ->
  JSON.parse (Ingest.body_text ev2) = Some (VObj m2) ->
  lookup "severity" m1 = lookup "severity" m2 ->
  lookup "message" m1 = lookup "message" m2 ->
  fst (Ingest.handler ev1 env w) = fst (Ingest.handler ev2 env w) /\
  table (snd (Ingest.handler ev1 env w)) = table (snd (Ingest.handler ev2 env w)).
Proof.
  intros H1 H2 Hs Hm.
  pose proof (validate_same_fields m1 m2 Hs Hm) as Hv.
  assert (entry_of env (VObj m1) = entry_of env (VObj m2)) as He
    by (unfold entry_of, get; rewrite Hs, Hm; reflexivity).
  destruct (isValid (validateLogInput (VObj m2))) eqn:Hv2.
  - assert (isValid (validateLogInput (VObj m1)) = true) as Hv1
      by (rewrite Hv; exact Hv2).
    destruct (put_fault env) as [e |] eqn:Hf.
    + rewrite (handler_fault ev1 env w _ e H1 Hv1 Hf),
        (handler_fault ev2 env w _ e H2 Hv2 Hf).
      split; reflexivity.
    + rewrite (handler_stored ev1 env w _ H1 Hv1 Hf),
        (handler_stored ev2 env w _ H2 Hv2 Hf).
      simpl. rewrite He. split; reflexivity.
  - assert (isValid (validateLogInput (VObj m1)) = false) as Hv1
      by (rewrite Hv; exact Hv2).
    rewrite (handler_invalid ev1 env w _ H1 Hv1),
      (handler_invalid ev2 env w _ H2 Hv2).
    simpl. rewrite Hv. split; reflexivity.
Qed.

Lemma ingest_reads_two_fields_only_witness :
  fst (Ingest.handler Samples.forged Samples.env_ok Samples.some_world)
  = fst (Ingest.handler
           (Samples.post
              (Samples.object_text [("message", Samples.quoted "hello");
                                    ("severity", Samples.quoted "info")]))
           Samples.env_ok Samples.some_world) /\
  table (snd (Ingest.handler Samples.forged Samples.env_ok Samples.some_world))
  = table (snd (Ingest.handler
                  (Samples.post
                     (Samples.object_text [("message", Samples.quoted "hello");
                                           ("severity", Samples.quoted "info")]))
                  Samples.env_ok Samples.some_world)).
Proof.
  apply (ingest_reads_two_fields_only Samples.forged
           (Samples.post
              (Samples.object_text [("message", Samples.quoted "hello");
                                    ("severity", Samples.quoted "info")]))
           Samples.env_ok Samples.some_world
           [("logId", VStr "client-chosen");
            ("timestamp", VStr "1999-01-01T00:00:00.000Z");
            ("severity", VStr "info"); ("message", VStr "hello")]
           [("message", VStr "hello"); ("severity", VStr "info")]).
  - vm_compute. reflexivity.
  - vm_compute. reflexivity.
  - reflexivity.
  - reflexivity.
Defined.

Lemma entry_well_formed (env : Env) (p : value) :
  isValid (validateLogInput p) = true -> well_formed_entry (entry_of env p).
Proof.
  intro Hv. apply valid_iff in Hv.
  destruct Hv as (_ & _ & _ & Hi & _ & msg & Hg & Hne).
  apply includes_inv in Hi. destruct Hi as (sev & Hsev & Hin).
  unfold well_formed_entry, entry_of. simpl.
  split; [reflexivity |]. split; eauto.
Qed.

Lemma put_forall (P : LogEntry -> Prop) (item : LogEntry) (t : DynamoDB.Table) :
  Forall P t -> P item -> Forall P (DynamoDB.put item t).
Proof.
  intros Ht Hi. unfold DynamoDB.put. apply Forall_app. split.
  - apply Forall_forall. intros r Hr. apply filter_In in Hr.
    destruct Hr as [Hr _]. rewrite Forall_forall in Ht. apply Ht. exact Hr.
  - constructor; [exact Hi | constructor].
Qed.

(** X9. The handler keeps the table well formed: if every record has the
    group [LOG], a valid severity and a message that is a string and not
    blank, so has every record after the call, however the call ends. *)
Theorem ingest_keeps_table_well_formed (ev : Event) (env : Env) (w : World)
  (resp : Response CreateLogResponse) (w' : World) :
  Ingest.handler ev env w = (Ok resp, w') ->
  Forall well_formed_entry (table w) ->
  Forall well_formed_entry (table w').
Proof.
  intros Hh Hw.
  destruct (handler_cases ev env w)
    as [[_ H] | [(p & reason & _ & _ & _ & H)
       | [(p & e & _ & _ & _ & H) | (p & _ & Hv & _ & H)]]];
    rewrite H in Hh; injection Hh as <- <-; simpl; try exact Hw.
  apply put_forall; [exact Hw | apply entry_well_formed; exact Hv].
Qed.

Lemma ingest_keeps_table_well_formed_witness :
  Forall well_formed_entry
    (table (snd (Ingest.handler Samples.payment_failed Samples.env_ok
                   Samples.empty_world))).
Proof.
  apply (ingest_keeps_table_well_formed Samples.payment_failed Samples.env_ok
           Samples.empty_world
           (match fst (Ingest.handler Samples.payment_failed Samples.env_ok
                         Samples.empty_world) with
            | Ok r => r
            | Throw _ => Ingest.failure 500 ""
            end)).
  - vm_compute. reflexivity.
  - simpl. constructor.
Defined.

Lemma put_fresh (item : LogEntry) (t : DynamoDB.Table) :
  existsb (fun r => DynamoDB.same_key r item) t = false ->
  DynamoDB.put item t = (t ++ [item])%list.
Proof.
  intro H. unfold DynamoDB.put. f_equal.
  induction t as [| r t IH]; [reflexivity |].
  simpl in *. apply orb_false_iff in H. destruct H as [Hr Ht].
  rewrite Hr. simpl. f_equal. apply IH. exact Ht.
Qed.

(** X10. A successful call adds exactly one record: when no record has the
    generated id with the same timestamp, the table after the call is the
    table before it followed by the new record. *)
Theorem ingest_appends_one_record (ev : Event) (env : Env) (w : World)
  (p : value) :
  JSON.parse (Ingest.body_text ev) = Some p ->
  isValid (validateLogInput p) = true ->
  put_fault env = None ->
  existsb (fun r => DynamoDB.same_key r (entry_of env p)) (table w) = false ->
  table (snd (Ingest.handler ev env w)) = (table w ++ [entry_of env p])%list /\
  List.length (table (snd (Ingest.handler ev env w)))
  = S (List.length (table w)).
Proof.
  intros Hp Hv Hf Hk.
  rewrite (handler_stored ev env w p Hp Hv Hf). simpl.
  rewrite (put_fresh _ _ Hk). split; [reflexivity |].
  rewrite length_app. simpl. lia.
Qed.

Lemma ingest_appends_one_record_witness :
  table (snd (Ingest.handler Samples.payment_failed Samples.env_ok
                Samples.some_world))
  = (table Samples.some_world
     ++ [entry_of Samples.env_ok
           (VObj [("severity", VStr "error");
                  ("message", VStr "Payment processing failed")])])%list /\
  List.length (table (snd (Ingest.handler Samples.payment_failed Samples.env_ok
                             Samples.some_world)))
  = S (List.length (table Samples.some_world)).
Proof.
  apply (ingest_appends_one_record Samples.payment_failed Samples.env_ok
           Samples.some_world
           (VObj [("severity", VStr "error");
                  ("message", VStr "Payment processing failed")])).
  - vm_compute. reflexivity.
  - vm_compute. reflexivity.
  - reflexivity.
  - vm_compute. reflexivity.
Defined.

Lemma put_keeps (item r : LogEntry) (t : DynamoDB.Table) :
  In r t -> DynamoDB.same_key r item = false -> In r (DynamoDB.put item t).
Proof.
  intros Hr Hk. unfold DynamoDB.put. apply in_or_app. left.
  apply filter_In. split; [exact Hr |]. rewrite Hk. reflexivity.
Qed.

(** X11. Nothing is deduplicated: the same request sent twice, each call
    drawing its own id, leaves two records in the table, which differ in
    their ids and agree on severity and message. *)
Theorem ingest_retry_stores_twice (ev : Event) (env1 env2 : Env) (w : World)
  (p : value) :
  JSON.parse (Ingest.body_text ev) = Some p ->
  isValid (validateLogInput p) = true ->
  put_fault env1 = None -> put_fault env2 = None ->
  uuid env1 <> uuid env2 ->
  In (entry_of env1 p)
     (table (snd (Ingest.handler ev env2 (snd (Ingest.handler ev env1 w))))) /\
  In (entry_of env2 p)
     (table (snd (Ingest.handler ev env2 (snd (Ingest.handler ev env1 w))))) /\
  logId (entry_of env1 p) <> logId (entry_of env2 p) /\
  severity (entry_of env1 p) = severity (entry_of env2 p) /\
  message (entry_of env1 p) = message (entry_of env2 p).
Proof.
  intros Hp Hv Hf1 Hf2 Hne.
  rewrite (handler_stored ev env1 w p Hp Hv Hf1). simpl.
  rewrite (handler_stored ev env2 _ p Hp Hv Hf2). simpl.
  split; [| split; [apply put_contains | split; [exact Hne | split; reflexivity]]].
  apply put_keeps; [apply put_contains |].
  unfold DynamoDB.same_key. simpl.
  destruct (String.eqb_spec (uuid env1) (uuid env2)) as [E | E];
    [contradiction | reflexivity].
Qed.

Lemma ingest_retry_stores_twice_witness :
  In (entry_of Samples.env_ok
        (VObj [("severity", VStr "error");
               ("message", VStr "Payment processing failed")]))
     (table (snd (Ingest.handler Samples.payment_failed Samples.env_retry
                    (snd (Ingest.handler Samples.payment_failed Samples.env_ok
                            Samples.empty_world))))) /\
  In (entry_of Samples.env_retry
        (VObj [("severity", VStr "error");
               ("message", VStr "Payment processing failed")]))
     (table (snd (Ingest.handler Samples.payment_failed Samples.env_retry
                    (snd (Ingest.handler Samples.payment_failed Samples.env_ok
                            Samples.empty_world))))) /\
  logId (entry_of Samples.env_ok
           (VObj [("severity", VStr "error");
                  ("message", VStr "Payment processing failed")]))
  <> logId (entry_of Samples.env_retry
              (VObj [("severity", VStr "error");
                     ("message", VStr "Payment processing failed")])) /\
  severity (entry_of Samples.env_ok
              (VObj [("severity", VStr "error");
                     ("message", VStr "Payment processing failed")]))
  = severity (entry_of Samples.env_retry
                (VObj [("severity", VStr "error");
                       ("message", VStr "Payment processing failed")])) /\
  message (entry_of Samples.env_ok
             (VObj [("severity", VStr "error");
                    ("message", VStr "Payment processing failed")]))
  = message (entry_of Samples.env_retry
               (VObj [("severity", VStr "error");
                      ("message", VStr "Payment processing failed")])).
Proof.
  apply (ingest_retry_stores_twice Samples.payment_failed Samples.env_ok
           Samples.env_retry Samples.empty_world
           (VObj [("severity", VStr "error");
                  ("message", VStr "Payment processing failed")])).
  - vm_compute. reflexivity.
  - vm_compute. reflexivity.
  - reflexivity.
  - reflexivity.
  - simpl. discriminate.
Defined.

End IngestBehaviour.

(* ================================================================== *)
(** ** More on the read-recent handler, and the two handlers together *)
(* ================================================================== *)

Section ReadRecentBehaviour.
Import JS Validator.

Lemma scan_length (t : DynamoDB.Table) :
  List.length (DynamoDB.scan recent_query t)
  = Nat.min 100 (List.length (log_group t)).
Proof.
  unfold DynamoDB.scan, recent_query, log_group.
  cbn [DynamoDB.Limit DynamoDB.ScanIndexForward DynamoDB.KeyCondition].
  rewrite length_firstn. f_equal.
  symmetry. apply Permutation_length. apply index_sort_perm.
Qed.

Lemma scan_small_group (t : DynamoDB.Table) :
  List.length (log_group t) <= 100 ->
  Permutation (log_group t) (DynamoDB.scan recent_query t).
Proof.
  intro Hl. unfold DynamoDB.scan, recent_query.
  cbn [DynamoDB.Limit DynamoDB.ScanIndexForward DynamoDB.KeyCondition].
  fold (log_group t).
  rewrite firstn_all2.
  - apply index_sort_perm.
  - rewrite <- (Permutation_length (index_sort_perm _ (log_group t))).
    exact Hl.
Qed.

(** X12. When the query goes through, [count] is the number of records of
    the group [LOG] in the table, capped at 100: all of them when there are
    at most 100, exactly 100 when there are more. *)
Theorem read_recent_count (ev : Event) (env : Env) (w : World) :
  query_fault env = None ->
  exists resp w',
    ReadRecent.handler ev env w = (Ok resp, w') /\
    count (resp_body resp) = Nat.min 100 (List.length (log_group (table w))) /\
    (List.length (log_group (table w)) <= 100 ->
     Permutation (log_group (table w)) (logs (resp_body resp))).
Proof.
  intro Hf. rewrite (handler_read ev env w Hf).
  do 2 eexists. split; [reflexivity |].
  cbn [resp_body count logs].
  split; [apply scan_length | apply scan_small_group].
Qed.

Lemma read_recent_count_witness :
  exists resp w',
    ReadRecent.handler {| body := None |} Samples.env_ok Samples.some_world
    = (Ok resp, w') /\
    count (resp_body resp)
    = Nat.min 100 (List.length (log_group (table Samples.some_world))) /\
    (List.length (log_group (table Samples.some_world)) <= 100 ->
     Permutation (log_group (table Samples.some_world)) (logs (resp_body resp))).
Proof.
  apply (read_recent_count {| body := None |} Samples.env_ok Samples.some_world).
  reflexivity.
Defined.

(** X13. The handler only reads: it leaves the table as it was on both
    paths, and its response does not depend on the event it is given. *)
Theorem read_recent_read_only (ev1 ev2 : Event) (env : Env) (w : World) :
  table (snd (ReadRecent.handler ev1 env w)) = table w /\
  fst (ReadRecent.handler ev1 env w) = fst (ReadRecent.handler ev2 env w).
Proof.
  destruct (query_fault env) as [e |] eqn:Hf.
  - rewrite (handler_read_fault ev1 env w e Hf),
      (handler_read_fault ev2 env w e Hf).
    split; reflexivity.
  - rewrite (handler_read ev1 env w Hf), (handler_read ev2 env w Hf).
    split; reflexivity.
Qed.

Lemma log_group_put (item : LogEntry) (t : DynamoDB.Table) :
  List.length (log_group (DynamoDB.put item t)) <= S (List.length (log_group t)).
Proof.
  unfold log_group, DynamoDB.put. rewrite filter_app, length_app.
  assert (forall (f g : LogEntry -> bool) l,
             List.length (filter f (filter g l)) <= List.length (filter f l))
    as Hsub.
  { intros f g l. induction l as [| x l IH]; simpl; [lia |].
    destruct (g x), (f x) eqn:Hfx; simpl; try rewrite Hfx; simpl; lia. }
  specialize (Hsub (fun r => logType r =? "LOG")
                (fun x => negb (DynamoDB.same_key x item)) t).
  simpl. destruct (logType item =? "LOG"); simpl; lia.
Qed.

(** X14. Write, then read: after a successful ingest into a table with
    fewer than 100 records of the group, a read whose query goes through
    returns the record just stored, with the id and timestamp the ingest
    response reported and the severity and message of the request. *)
Theorem ingest_then_read_recent (ev ev' : Event) (env env' : Env) (w : World)
  (p : value) :
  JSON.parse (Ingest.body_text ev) = Some p ->
  isValid (validateLogInput p) = true ->
  put_fault env = None ->
  query_fault env' = None ->
  List.length (log_group (table w)) < 100 ->
  exists resp w1 resp' w2,
    Ingest.handler ev env w = (Ok resp, w1) /\
    ReadRecent.handler ev' env' w1 = (Ok resp', w2) /\
    exists r,
      In r (logs (resp_body resp')) /\
      Some (logId r) = cr_logId (resp_body resp) /\
      Some (timestamp r) = cr_timestamp (resp_body resp) /\
      severity r = get p "severity" /\
      message r = get p "message".
Proof.
  intros Hp Hv Hf Hq Hl.
  rewrite (handler_stored ev env w p Hp Hv Hf).
  do 2 eexists.
  rewrite (handler_read ev' env' _ Hq).
  do 2 eexists. split; [reflexivity |]. split; [reflexivity |].
  cbn [resp_body logs table cr_logId cr_timestamp].
  exists (entry_of env p). split; [| repeat split].
  eapply Permutation_in.
  - apply scan_small_group.
    pose proof (log_group_put (entry_of env p) (table w)). lia.
  - unfold log_group. apply filter_In. split; [apply put_contains | reflexivity].
Qed.

Lemma ingest_then_read_recent_witness :
  exists resp w1 resp' w2,
    Ingest.handler Samples.payment_failed Samples.env_ok Samples.some_world
    = (Ok resp, w1) /\
    ReadRecent.handler {| body := None |} Samples.env_retry w1 = (Ok resp', w2) /\
    exists r,
      In r (logs (resp_body resp')) /\
      Some (logId r) = cr_logId (resp_body resp) /\
      Some (timestamp r) = cr_timestamp (resp_body resp) /\
      severity r
      = get (VObj [("severity", VStr "error");
                   ("message", VStr "Payment processing failed")]) "severity" /\
      message r
      = get (VObj [("severity", VStr "error");
                   ("message", VStr "Payment processing failed")]) "message".
Proof.
  apply (ingest_then_read_recent Samples.payment_failed {| body := None |}
           Samples.env_ok Samples.env_retry Samples.some_world
           (VObj [("severity", VStr "error");
                  ("message", VStr "Payment processing failed")])).
  - vm_compute. reflexivity.
  - vm_compute. reflexivity.
  - reflexivity.
  - reflexivity.
  - vm_compute. lia.
Defined.

End ReadRecentBehaviour.

(* ================================================================== *)
(** ** [trim] removes white space from the two ends only *)
(* ================================================================== *)

Section TrimFacts.
Import JS.

Variable width : list N -> nat.
Hypothesis width_nil : width [] = 0.

(** What is dropped is a prefix. *)
Lemma drop_ws_suffix (k : nat) (l : list N) :
  exists dropped, l = (dropped ++ drop_ws width k l)%list.
Proof.
  revert k. induction l as [| x r IH]; intro k.
  - exists []. destruct k; simpl; [rewrite width_nil |]; reflexivity.
  - destruct k as [| k]; simpl.
    + destruct (width (x :: r)) as [| k'] eqn:Hw.
      * exists []. reflexivity.
      * destruct (IH k') as [d Hd]. exists (x :: d). simpl. f_equal. exact Hd.
    + destruct (IH k) as [d Hd]. exists (x :: d). simpl. f_equal. exact Hd.
Qed.

(** What is left does not start with white space. *)
Lemma drop_ws_stable (k : nat) (l : list N) :
  width (drop_ws width k l) = 0.
Proof.
  revert k. induction l as [| x r IH]; intro k.
  - destruct k; simpl; [rewrite width_nil |]; exact width_nil.
  - destruct k as [| k]; simpl.
    + destruct (width (x :: r)) as [| k'] eqn:Hw; [exact Hw | apply IH].
    + apply IH.
Qed.

(** Nothing is dropped from a text that does not start with white space. *)
Lemma drop_ws_none (l : list N) : width l = 0 -> drop_ws width 0 l = l.
Proof.
  intro H. destruct l as [| x r]; simpl; rewrite H; reflexivity.
Qed.

End TrimFacts.

Lemma of_codes_codes (s : string) : JS.of_codes (JS.codes s) = s.
Proof.
  unfold JS.of_codes, JS.codes. rewrite map_map.
  rewrite (map_ext _ (fun a => a)) by apply ascii_N_embedding.
  rewrite map_id. apply string_of_list_ascii_of_string.
Qed.

(** A text with white space at neither end is its own trim. *)
Lemma trim_unchanged (s : string) :
  JS.ws_width (JS.codes s) = 0 ->
  JS.ws_width_rev (rev (JS.codes s)) = 0 ->
  JS.trim s = s.
Proof.
  intros Hs He. unfold JS.trim, JS.trimEnd, JS.trimStart.
  rewrite (drop_ws_none _ _ Hs), (drop_ws_none _ _ He), rev_involutive.
  apply of_codes_codes.
Qed.
